(** * check_seeds.py: a shallow embedding and its verified properties

    The program pages through the Commons collection API, cluster by
    cluster, and checks every seed URL it finds with [check_url]: a HEAD
    probe, a classification of the status code and, on a 200, a robots.txt
    check for the agent "CoherenceBot".

    The embedding follows src/python/check_seeds.py function by function.
    Network libraries (requests, urllib) are collaborators: they are the
    fields of the class [Collaborators], and every definition is generic in
    them.  Python values coming out of [response.json()] are modelled by
    [pyval]; Python integers by [Z]; exceptions by [exn]. *)

From stdpp Require Import gmap strings list fin_maps.
From Stdlib Require Import ZArith Lia Ascii String.

#[local] Set Warnings "-register-all".
#[local] Open Scope string_scope.
#[local] Open Scope Z_scope.

(** ** Python values *)

(** The values [json.loads] can produce.  A JSON object is a [dict] with
    string keys; non-integral numbers are left out (no claim depends on
    them). *)
Inductive pyval : Type :=
  | PNone
  | PBool (b : bool)
  | PInt (z : Z)
  | PStr (s : string)
  | PList (l : list pyval)
  | PDict (d : gmap string pyval).

(** Exceptions, by the class the [except] clauses of the program can tell
    apart, with the text [str(e)] gives.  For the exceptions the
    interpreter raises the text is the one of CPython 3.8 to 3.10; later
    versions word some of the TypeErrors differently. *)
Inductive exn_class : Type :=
  | Timeout            (* requests.exceptions.Timeout *)
  | TooManyRedirects   (* requests.exceptions.TooManyRedirects *)
  | SSLError           (* requests.exceptions.SSLError *)
  | TypeError
  | KeyError
  | NameError
  | OtherException.    (* any other subclass of Exception *)

Record exn : Type := Exn { exn_class_of : exn_class; exn_str : string }.

Module Py.

(** [not v] is [negb (truthy v)]. *)
Definition truthy (v : pyval) : bool :=
  match v with
  | PNone => false
  | PBool b => b
  | PInt z => negb (z =? 0)
  | PStr s => negb (String.eqb s "")
  | PList l => match l with [] => false | _ => true end
  | PDict d => negb (Nat.eqb (size d) 0)
  end.

Definition substring (k s : string) : bool :=
  match String.index 0 k s with Some _ => true | None => false end.

Definition is_str (k : string) (v : pyval) : bool :=
  match v with PStr s => String.eqb s k | _ => false end.

(** [k in v] for a string literal [k]. *)
Definition contains (v : pyval) (k : string) : exn + bool :=
  match v with
  | PStr s => inr (substring k s)
  | PList l => inr (existsb (is_str k) l)
  | PDict d => inr (bool_decide (is_Some (d !! k)))
  | PNone => inl (Exn TypeError "argument of type 'NoneType' is not iterable")
  | PBool _ => inl (Exn TypeError "argument of type 'bool' is not iterable")
  | PInt _ => inl (Exn TypeError "argument of type 'int' is not iterable")
  end.

(** [v[k]] for a string literal [k]. *)
Definition getitem (v : pyval) (k : string) : exn + pyval :=
  match v with
  | PDict d =>
      match d !! k with
      | Some x => inr x
      | None => inl (Exn KeyError ("'" +:+ k +:+ "'"))
      end
  | PList _ => inl (Exn TypeError "list indices must be integers or slices, not str")
  | PStr _ => inl (Exn TypeError "string indices must be integers")
  | PNone => inl (Exn TypeError "'NoneType' object is not subscriptable")
  | PBool _ => inl (Exn TypeError "'bool' object is not subscriptable")
  | PInt _ => inl (Exn TypeError "'int' object is not subscriptable")
  end.

Fixpoint chars (s : string) : list pyval :=
  match s with
  | EmptyString => []
  | String a r => PStr (String a EmptyString) :: chars r
  end.

(** The sequence [for x in v] runs through. *)
Definition iter (v : pyval) : exn + list pyval :=
  match v with
  | PList l => inr l
  | PDict d => inr (PStr <$> (map_to_list d).*1)
  | PStr s => inr (chars s)
  | PNone => inl (Exn TypeError "'NoneType' object is not iterable")
  | PBool _ => inl (Exn TypeError "'bool' object is not iterable")
  | PInt _ => inl (Exn TypeError "'int' object is not iterable")
  end.

End Py.

(** ** The collaborators *)

(** [requests]' header mapping is case-insensitive: entries are stored
    under the lower-cased header name. *)
Definition lower_ascii (a : ascii) : ascii :=
  let n := nat_of_ascii a in
  if (Nat.leb 65 n && Nat.leb n 90)%bool then ascii_of_nat (n + 32) else a.

Fixpoint lower (s : string) : string :=
  match s with
  | EmptyString => EmptyString
  | String a r => String (lower_ascii a) (lower r)
  end.

Record CaseInsensitiveDict : Type := Headers { store : gmap string string }.

Definition headers_contains (h : CaseInsensitiveDict) (k : string) : bool :=
  bool_decide (is_Some (store h !! lower k)).

Definition headers_getitem (h : CaseInsensitiveDict) (k : string) : exn + string :=
  match store h !! lower k with
  | Some v => inr v
  | None => inl (Exn KeyError ("'" +:+ lower k +:+ "'"))
  end.

(** What [requests.head] returns. *)
Record Response : Type :=
  { status_code : Z; headers : CaseInsensitiveDict }.

(** What [requests.get] returns: the status code and what [.json()] does. *)
Record ApiResponse : Type :=
  { api_status_code : Z; api_json : exn + pyval }.

(** The part of [urlparse]'s result the program reads. *)
Record ParseResult : Type := { scheme : string; netloc : string }.

(** The outside world.  [Net] is its state, [RP] a [RobotFileParser] that
    has read its file.  Every call may raise. *)
Class Collaborators (Net RP : Type) : Type :=
  { requests_get :
      Net -> pyval -> list (string * string) -> option (list (string * string)) ->
      Net * (exn + ApiResponse);
    requests_head : Net -> pyval -> Z -> bool -> Net * (exn + Response);
    urlparse : pyval -> exn + ParseResult;
    rp_read : Net -> string -> Net * (exn + RP);
    rp_crawl_delay : RP -> string -> option exn;
    rp_can_fetch : RP -> string -> pyval -> exn + bool }.

(** ** Output *)

(** [response_msg] is a string literal, a header value, or the exception
    caught by the last [except] clause. *)
Inductive msg : Type :=
  | MsgStr (s : string)
  | MsgExn (e : exn).

(** [str(m)], which is what [format] prints. *)
Definition str (m : msg) : string :=
  match m with
  | MsgStr s => s
  | MsgExn e => exn_str e
  end.

(** The lines printed on standard output, with the values formatted in. *)
Inductive Line : Type :=
  | Checking (cluster : string) (page successes failures : Z)
  | NoResponse (endpoint : pyval)
  | FailureAfterThreeRetries (endpoint : pyval)
  | RequestFailed (e : exn)
  | VerificationSucceeded (count : Z) (url uuid org_slug : pyval)
  | VerificationFailed (count : Z) (url uuid org_slug : pyval) (code : Z) (m : msg)
  | MaxRequestsReached (n : Z)
  | Printed (e : exn)
  | Summary (count successes failures : Z)
  | ExecutionTime
  | AverageExecutionTime.

(** A row of the report file. *)
Record Row : Type :=
  { row_url : pyval; row_uuid : pyval; row_org : pyval; row_code : Z; row_msg : msg }.

(** The network calls made, newest first. *)
Inductive Call : Type :=
  | CallGet (endpoint : pyval) (params : option (list (string * string)))
  | CallHead (url : pyval)
  | CallRobots (robots_txt : string).

(** Everything outside the local variables: the world, the calls made so
    far, standard output and the report file (both newest first). *)
Record Env (Net : Type) : Type :=
  { net : Net; calls : list Call; stdout : list Line; tsv_file : list Row }.

Arguments net {Net} _.
Arguments calls {Net} _.
Arguments stdout {Net} _.
Arguments tsv_file {Net} _.

(** Writing a line to standard output, and a row to the report file, is
    taken to succeed: an exception raised by [print] itself is not
    modelled. *)
Definition print {Net} (ln : Line) (env : Env Net) : Env Net :=
  {| net := net env; calls := calls env;
     stdout := ln :: stdout env; tsv_file := tsv_file env |}.

Definition print_row {Net} (r : Row) (env : Env Net) : Env Net :=
  {| net := net env; calls := calls env;
     stdout := stdout env; tsv_file := r :: tsv_file env |}.

Definition called {Net} (c : Call) (n : Net) (env : Env Net) : Env Net :=
  {| net := n; calls := c :: calls env;
     stdout := stdout env; tsv_file := tsv_file env |}.

(** ** The program *)

(** The command line, as [argparse] hands it over. *)
Record Args : Type := { args_endpoint : string; args_n : Z }.

(** The counters of [main]. *)
Record Locals : Type :=
  { page : Z; count : Z; successes : Z; failures : Z; retries : Z }.

(** How a loop of [main] ends: normally (also by [break]), by an exception
    on its way to the outer handler, or not within the given number of
    page requests. *)
Inductive Result (Net : Type) : Type :=
  | Done (env : Env Net) (l : Locals)
  | Raised (env : Env Net) (l : Locals) (e : exn)
  | OutOfFuel.

(** How a turn of the [while] loop ends: at the end of its body or by
    [continue], with the new value of [endpoint]; by [break]; or by an
    exception. *)
Inductive Turn (Net : Type) : Type :=
  | Continue (env : Env Net) (l : Locals) (endpoint : pyval)
  | Break (env : Env Net) (l : Locals)
  | Raise (env : Env Net) (l : Locals) (e : exn).

Arguments Continue {Net} _ _ _.
Arguments Break {Net} _ _.
Arguments Raise {Net} _ _ _.
Arguments Done {Net} _ _.
Arguments Raised {Net} _ _ _.
Arguments OutOfFuel {Net}.

Definition clusters : list string := ["us-east-2"; "eu-central-1"; "ap-northeast-1"].

Definition api_headers : list (string * string) :=
  [("Content-Type", "application/json; charset=utf-8");
   ("accept", "application/json");
   ("x-api-key", "pv=f=-q930xvsfuf(z@o-*ha^!sm2l7vncau_lgr@6m)k$voxk")].

Section Program.

Context {Net RP : Type} {world : Collaborators Net RP}.

(** *** check_url (lines 134-208) *)

(** The [except] clauses, lines 199-206: the message they leave in
    [response_msg]. *)
Definition except_clauses (e : exn) : msg :=
  match exn_class_of e with
  | Timeout => MsgStr "Timeout after 30s"
  | TooManyRedirects => MsgStr "Too many redirects"
  | SSLError => MsgStr "SSL error"
  | _ => MsgExn e
  end.

(** Line 145. *)
Definition robots_txt (parsed_uri : ParseResult) : string :=
  scheme parsed_uri +:+ "://" +:+ netloc parsed_uri +:+ "/robots.txt".

(** The result is the list [[response_status, response_code,
    response_msg]].  An exception leaves the variables as they were when
    it was raised. *)
Definition check_url (env : Env Net) (url : pyval) : Env Net * (bool * Z * msg) :=
  let response_status := false in
  let response_code := 0 in
  let '(n1, r) := requests_head (net env) url 30 false in
  let env := called (CallHead url) n1 env in
  match r with
  | inl e => (env, (response_status, response_code, except_clauses e))
  | inr response =>
      let response_code := status_code response in
      if response_code =? 200 then
        match urlparse url with
        | inl e => (env, (response_status, response_code, except_clauses e))
        | inr parsed_uri =>
            let '(n2, r) := rp_read (net env) (robots_txt parsed_uri) in
            let env := called (CallRobots (robots_txt parsed_uri)) n2 env in
            match r with
            | inl e => (env, (response_status, response_code, except_clauses e))
            | inr rp =>
                match rp_crawl_delay rp "*" with
                | Some e => (env, (response_status, response_code, except_clauses e))
                | None =>
                    match rp_can_fetch rp "CoherenceBot" url with
                    | inl e => (env, (response_status, response_code, except_clauses e))
                    | inr true => (env, (true, response_code, MsgStr "Accepted"))
                    | inr false => (env, (response_status, response_code, MsgStr "Robot exclusion"))
                    end
                end
            end
        end
      else if response_code =? 206 then
        (env, (response_status, response_code, MsgStr "No content"))
      else if (response_code >? 200) && (response_code <? 300) then
        (env, (response_status, response_code, MsgStr "Other 2xx"))
      else if (response_code >=? 300) && (response_code <? 400) then
        if headers_contains (headers response) "Location" then
          match headers_getitem (headers response) "Location" with
          | inl e => (env, (response_status, response_code, except_clauses e))
          | inr location => (env, (response_status, response_code, MsgStr location))
          end
        else (env, (response_status, response_code, MsgStr "Redirect without location"))
      else if response_code =? 400 then
        (env, (response_status, response_code, MsgStr "Bad Request"))
      else if response_code =? 401 then
        (env, (response_status, response_code, MsgStr "Unauthorized"))
      else if response_code =? 402 then
        (env, (response_status, response_code, MsgStr "Payment required"))
      else if response_code =? 403 then
        (env, (response_status, response_code, MsgStr "Forbidden"))
      else if response_code =? 405 then
        (env, (response_status, response_code, MsgStr "Method not allowed"))
      else if response_code =? 404 then
        (env, (response_status, response_code, MsgStr "Not found"))
      else if response_code =? 406 then
        (env, (response_status, response_code, MsgStr "Not acceptable"))
      else if (response_code >=? 400) && (response_code <? 500) then
        (env, (response_status, response_code, MsgStr "Other 4xx"))
      else if response_code <? 200 then
        (env, (response_status, response_code, MsgStr "Partial response"))
      else if response_code >=? 500 then
        (env, (response_status, response_code, MsgStr "Server error"))
      else (env, (response_status, response_code, MsgStr ""))
  end.

(** *** get_seeds (lines 102-131) *)

(** The test [in] of line 107 is outside the [try]: its [TypeError]
    reaches the caller.  On a status other than 200, line 127 formats
    [endpoint], a name that is not bound in this function: the
    [NameError] is caught by line 129 like any other exception. *)
Definition get_seeds (env : Env Net) (collection_endpoint : pyval) (cluster : string)
  : Env Net * (exn + pyval) :=
  let params := Some [("sourcing", "coherencebot"); ("cluster", cluster)] in
  match Py.contains collection_endpoint "?" with
  | inl e => (env, inl e)
  | inr has_params =>
      let params := if has_params then None else params in
      let '(n1, r) := requests_get (net env) collection_endpoint api_headers params in
      let env := called (CallGet collection_endpoint params) n1 env in
      match r with
      | inl e => (print (RequestFailed e) env, inr PNone)
      | inr response =>
          let status_code := api_status_code response in
          if status_code =? 200 then
            match api_json response with
            | inl e => (print (RequestFailed e) env, inr PNone)
            | inr response_obj => (env, inr response_obj)
            end
          else
            (print (RequestFailed (Exn NameError "name 'endpoint' is not defined")) env,
             inr PNone)
      end
  end.

(** *** main (lines 12-99) *)

Definition max_reached (args : Args) (l : Locals) : bool :=
  (args_n args >? 0) && (count l >=? args_n args).

(** Lines 62-65. *)
Definition seed_fields (collection : pyval) : exn + (pyval * pyval * pyval * pyval) :=
  match Py.getitem collection "url" with
  | inl e => inl e
  | inr url =>
      match Py.getitem collection "title" with
      | inl e => inl e
      | inr title =>
          match Py.getitem collection "uuid" with
          | inl e => inl e
          | inr uuid =>
              match Py.getitem collection "org" with
              | inl e => inl e
              | inr org =>
                  match Py.getitem org "slug" with
                  | inl e => inl e
                  | inr org_slug => inr (url, title, uuid, org_slug)
                  end
              end
          end
      end
  end.

(** The body of the [for] loop, lines 61-82. *)
Definition check_seed (env : Env Net) (l : Locals) (collection : pyval)
  : Env Net * Locals * option exn :=
  let l := {| page := page l; count := count l + 1; successes := successes l;
              failures := failures l; retries := retries l |} in
  match seed_fields collection with
  | inl e => (env, l, Some e)
  | inr (url, title, uuid, org_slug) =>
      let '(env, (success, code, m)) := check_url env url in
      if success then
        (print (VerificationSucceeded (count l) url uuid org_slug) env,
         {| page := page l; count := count l; successes := successes l + 1;
            failures := failures l; retries := retries l |},
         None)
      else
        (print_row {| row_url := url; row_uuid := uuid; row_org := org_slug;
                      row_code := code; row_msg := m |}
           (print (VerificationFailed (count l) url uuid org_slug code m) env),
         {| page := page l; count := count l; successes := successes l;
            failures := failures l + 1; retries := retries l |},
         None)
  end.

(** The [for] loop, lines 60-84. *)
Fixpoint for_collection (args : Args) (env : Env Net) (l : Locals) (results : list pyval)
  : Env Net * Locals * option exn :=
  match results with
  | [] => (env, l, None)
  | collection :: rest =>
      match check_seed env l collection with
      | (env, l, Some e) => (env, l, Some e)
      | (env, l, None) =>
          if max_reached args l then (env, l, None)
          else for_collection args env l rest
      end
  end.

(** One turn of the [while] loop, lines 41-86, entered with the value of
    [endpoint]: it makes one call of [get_seeds]. *)
Definition while_body (args : Args) (cluster : string)
    (env : Env Net) (l : Locals) (endpoint : pyval) : Turn Net :=
  let l := {| page := page l + 1; count := count l; successes := successes l;
              failures := failures l; retries := retries l |} in
  let env := print (Checking cluster (page l) (successes l) (failures l)) env in
  match get_seeds env endpoint cluster with
  | (env, inl e) => Raise env l e
  | (env, inr api_response) =>
      if negb (Py.truthy api_response) then
        let env := print (NoResponse endpoint) env in
        let l := {| page := page l; count := count l; successes := successes l;
                    failures := failures l; retries := retries l + 1 |} in
        if retries l >? 3 then
          Break (print (FailureAfterThreeRetries endpoint) env)
            {| page := page l; count := count l; successes := successes l;
               failures := failures l; retries := 0 |}
        else Continue env l endpoint
      else
        match Py.contains api_response "next" with
        | inl e => Raise env l e
        | inr has_next =>
            match (if has_next then Py.getitem api_response "next" else inr PNone) with
            | inl e => Raise env l e
            | inr endpoint =>
                match Py.contains api_response "results" with
                | inl e => Raise env l e
                | inr false => Continue env l endpoint
                | inr true =>
                    match Py.getitem api_response "results" with
                    | inl e => Raise env l e
                    | inr results =>
                        match Py.iter results with
                        | inl e => Raise env l e
                        | inr results =>
                            match for_collection args env l results with
                            | (env, l, Some e) => Raise env l e
                            | (env, l, None) =>
                                if max_reached args l then Break env l
                                else Continue env l endpoint
                            end
                        end
                    end
                end
            end
        end
  end.

(** The [while] loop, lines 40-86; [fuel] bounds its turns. *)
Fixpoint while_endpoint (fuel : nat) (args : Args) (cluster : string)
    (env : Env Net) (l : Locals) (endpoint : pyval) : Result Net :=
  match endpoint with
  | PNone => Done env l
  | _ =>
      match fuel with
      | O => OutOfFuel
      | S fuel =>
          match while_body args cluster env l endpoint with
          | Continue env l endpoint => while_endpoint fuel args cluster env l endpoint
          | Break env l => Done env l
          | Raise env l e => Raised env l e
          end
      end
  end.

(** The loop over the clusters, lines 37-90. *)
Fixpoint for_cluster (fuel : nat) (args : Args) (env : Env Net) (l : Locals)
    (cs : list string) : Result Net :=
  match cs with
  | [] => Done env l
  | cluster :: rest =>
      match while_endpoint fuel args cluster env l (PStr (args_endpoint args)) with
      | Done env l =>
          if max_reached args l then Done (print (MaxRequestsReached (args_n args)) env) l
          else for_cluster fuel args env l rest
      | r => r
      end
  end.

(** Lines 94-99. *)
Definition finish (env : Env Net) (l : Locals) : Env Net * Locals :=
  let env := print (Summary (count l) (successes l) (failures l)) env in
  let env := print ExecutionTime env in
  (if count l >? 0 then print AverageExecutionTime env else env, l).

(** The [try] block of [main], lines 31-90, started in the world [n0]. *)
Definition try_block (fuel : nat) (args : Args) (n0 : Net) : Result Net :=
  let env := {| net := n0; calls := []; stdout := []; tsv_file := [] |} in
  let l := {| page := 0; count := 0; successes := 0; failures := 0; retries := 0 |} in
  for_cluster fuel args env l clusters.

(** [main], from line 23 on.  The result is [None] when some [while]
    loop did not end within [fuel] turns.  The header line of the report
    is left out of [tsv_file]. *)
Definition main (fuel : nat) (args : Args) (n0 : Net) : option (Env Net * Locals) :=
  match try_block fuel args n0 with
  | Done env l => Some (finish env l)
  | Raised env l e => Some (finish (print (Printed e) env) l)
  | OutOfFuel => None
  end.

End Program.

(** ** A scripted world, for running the program on concrete inputs *)

Module Script.

(** The collection API answers the requests it gets in the order of
    [pages], whatever the endpoint asked for; when the script is used up
    the connection fails.  A probe is answered by [probe], by URL.  The
    robots file of a host either cannot be read or allows or disallows
    every agent. *)
Record Net : Type :=
  { pages : list (exn + ApiResponse);
    probe : pyval -> exn + Response;
    robots : string -> exn + bool }.

Definition connection_error : exn :=
  Exn OtherException "Connection refused".

Definition get (n : Net) (url : pyval) (hdrs : list (string * string))
    (params : option (list (string * string))) : Net * (exn + ApiResponse) :=
  match pages n with
  | [] => (n, inl connection_error)
  | r :: rest => ({| pages := rest; probe := probe n; robots := robots n |}, r)
  end.

(** The text of [s] up to the first of the characters for which [stop]
    holds, and the rest from that character on. *)
Fixpoint split_at (stop : ascii -> bool) (s : string) : string * string :=
  match s with
  | EmptyString => (EmptyString, EmptyString)
  | String a r =>
      if stop a then (EmptyString, s)
      else let '(h, t) := split_at stop r in (String a h, t)
  end.

Definition is_colon (a : ascii) : bool := Ascii.eqb a ":".
Definition ends_netloc (a : ascii) : bool :=
  Ascii.eqb a "/" || Ascii.eqb a "?" || Ascii.eqb a "#".

(** A stand-in for [urllib.parse.urlparse] on URLs [scheme://netloc...]. *)
Definition parse (url : pyval) : exn + ParseResult :=
  match url with
  | PStr s =>
      let '(sch, rest) := split_at is_colon s in
      match rest with
      | String _ (String _ (String _ rest)) =>
          inr {| scheme := sch; netloc := fst (split_at ends_netloc rest) |}
      | _ => inr {| scheme := ""; netloc := "" |}
      end
  | _ => inl (Exn TypeError "expected a string")
  end.

#[global] Instance world : Collaborators Net bool :=
  {| requests_get := get;
     requests_head := fun n url _ _ => (n, probe n url);
     urlparse := parse;
     rp_read := fun n robots_url => (n, robots n robots_url);
     rp_crawl_delay := fun _ _ => None;
     rp_can_fetch := fun allowed _ _ => inr allowed |}.

Definition ok (v : pyval) : exn + ApiResponse :=
  inr {| api_status_code := 200; api_json := inr v |}.

Definition status (code : Z) : exn + Response :=
  inr {| status_code := code; headers := Headers ∅ |}.

Definition start (n : Net) : Env Net :=
  {| net := n; calls := []; stdout := []; tsv_file := [] |}.

Definition zero : Locals :=
  {| page := 0; count := 0; successes := 0; failures := 0; retries := 0 |}.

Definition seed (url : string) : pyval :=
  PDict (<["url" := PStr url]> (<["title" := PStr "t"]> (<["uuid" := PStr "u"]>
          (<["org" := PDict {["slug" := PStr "o"]}]> ∅)))).

(** Worlds and inputs of the examples. *)

Definition base : string := "https://policycommons.net/api/collections/".
Definition page2 : string := "https://policycommons.net/api/collections/?page=2".
Definition target : pyval := PStr "https://example.org/reports/2020?lang=en".

Definition server (ps : list (exn + ApiResponse)) (answer : exn + Response)
    (robots_answer : exn + bool) : Net :=
  {| pages := ps; probe := fun _ => answer; robots := fun _ => robots_answer |}.

Definition timed_out : exn := Exn Timeout "Read timed out. (read timeout=30)".
Definition url_error : exn := Exn OtherException "<urlopen error timed out>".

Definition moved : Response :=
  {| status_code := 301;
     headers := Headers {["location" := "https://example.com/x"]} |}.

(** A page of [k] seeds, followed by another page or not. *)
Definition page_of (k : nat) (url : string) (next : option string) : exn + ApiResponse :=
  let results : gmap string pyval := {["results" := PList (replicate k (seed url))]} in
  match next with
  | Some endpoint => ok (PDict (<["next" := PStr endpoint]> results))
  | None => ok (PDict results)
  end.

(** Three pages of 8, 8 and 9 seeds. *)
Definition twenty_five : list (exn + ApiResponse) :=
  [page_of 8 "https://example.org/a" (Some page2);
   page_of 8 "https://example.org/b" (Some page2);
   page_of 9 "https://example.org/c" None].

(** The request of [get_seeds] for the first page of a cluster, and for a
    page whose endpoint has its parameters. *)
Definition first_page (cluster : string) : Call :=
  CallGet (PStr base) (Some [("sourcing", "coherencebot"); ("cluster", cluster)]).
Definition next_page (endpoint : string) : Call := CallGet (PStr endpoint) None.

(** The first page fails three times and then arrives, without seeds;
    the second page fails once. *)
Definition flaky : list (exn + ApiResponse) :=
  [inl connection_error; inl connection_error; inl connection_error;
   ok (PDict {["next" := PStr page2]});
   inl connection_error;
   ok (PDict {["results" := PList []]});
   ok (PDict {["results" := PList []]})].

(** The first page fails four times; the other clusters have no seeds. *)
Definition down : list (exn + ApiResponse) :=
  [inl connection_error; inl connection_error; inl connection_error;
   inl connection_error;
   ok (PDict {["results" := PList []]});
   ok (PDict {["results" := PList []]})].

(** An empty object, then a page with one seed. *)
Definition empty_first : list (exn + ApiResponse) :=
  [ok (PDict ∅); ok (PDict {["results" := PList [seed "https://example.org/a"]]})].

Definition slow : Net := server [] (inl timed_out) (inr true).
Definition unreadable : Net := server [] (status 200) (inl url_error).
Definition excluding : Net := server [] (status 200) (inr false).
Definition teapot : Net := server [] (status 418) (inr true).
Definition redirecting : Net := server [] (inr moved) (inr true).
Definition collection25 : Net := server twenty_five (status 200) (inr true).
Definition flaky_api : Net := server flaky (status 404) (inr true).
Definition down_api : Net := server down (status 404) (inr true).
Definition empty_api : Net := server empty_first (status 404) (inr true).
Definition bare_api : Net :=
  server [ok (PDict {["next" := PStr page2]})] (status 404) (inr true).

(** The API answers 503 once; the API answers 200 with a page whose
    'next' is a number; the first entry of the first page has no 'org'. *)
Definition unavailable_api : Net :=
  server [inr {| api_status_code := 503; api_json := inr PNone |}] (status 404) (inr true).
Definition numbered_api : Net :=
  server [ok (PDict {["next" := PInt 2]})] (status 404) (inr true).
Definition broken_entry : pyval :=
  PDict (<["url" := PStr "https://example.org/a"]> (<["title" := PStr "t"]>
          {["uuid" := PStr "u"]})).
Definition broken_api : Net :=
  server [ok (PDict {["results" := PList [broken_entry; seed "https://example.org/b"]]})]
    (status 200) (inr true).

(** A page of three seeds; a page whose second entry has no 'org'. *)
Definition three : list pyval :=
  [seed "https://example.org/a"; seed "https://example.org/b"; seed "https://example.org/c"].
Definition three_api : Net :=
  server [ok (PDict {["results" := PList three]})] (status 404) (inr true).
Definition half_broken_api : Net :=
  server [ok (PDict {["results" := PList [seed "https://example.org/a"; broken_entry]]})]
    (status 200) (inr true).
Definition numbered_page_api : Net :=
  server [ok (PDict (<["next" := PInt 2]> {["results" := PList three]}))]
    (status 404) (inr true).


End Script.

(** ** Vocabulary of the properties *)

(** The status policy as the specification words it (section 4.1): the
    brackets, which codes are in each, and the message of each. *)
Module Spec.

Inductive bracket : Type :=
  | Ok200 | NoContent206 | Other2xx | Redirect3xx
  | BadRequest400 | Unauthorized401 | PaymentRequired402 | Forbidden403
  | NotFound404 | MethodNotAllowed405 | NotAcceptable406 | Other4xx
  | Below200 | ServerError5xx.

Definition in_bracket (b : bracket) (code : Z) : bool :=
  match b with
  | Ok200 => code =? 200
  | NoContent206 => code =? 206
  | Other2xx => (201 <=? code) && (code <=? 299) && negb (code =? 200) && negb (code =? 206)
  | Redirect3xx => (300 <=? code) && (code <=? 399)
  | BadRequest400 => code =? 400
  | Unauthorized401 => code =? 401
  | PaymentRequired402 => code =? 402
  | Forbidden403 => code =? 403
  | NotFound404 => code =? 404
  | MethodNotAllowed405 => code =? 405
  | NotAcceptable406 => code =? 406
  | Other4xx => (400 <=? code) && (code <=? 499) && negb ((400 <=? code) && (code <=? 406))
  | Below200 => code <? 200
  | ServerError5xx => 500 <=? code
  end.

(** [None] for 200: the code is a candidate success and the robots check
    decides. *)
Definition message (b : bracket) (h : CaseInsensitiveDict) : option string :=
  match b with
  | Ok200 => None
  | NoContent206 => Some "No content"
  | Other2xx => Some "Other 2xx"
  | Redirect3xx =>
      match store h !! "location" with
      | Some location => Some location
      | None => Some "Redirect without location"
      end
  | BadRequest400 => Some "Bad Request"
  | Unauthorized401 => Some "Unauthorized"
  | PaymentRequired402 => Some "Payment required"
  | Forbidden403 => Some "Forbidden"
  | NotFound404 => Some "Not found"
  | MethodNotAllowed405 => Some "Method not allowed"
  | NotAcceptable406 => Some "Not acceptable"
  | Other4xx => Some "Other 4xx"
  | Below200 => Some "Partial response"
  | ServerError5xx => Some "Server error"
  end.

End Spec.

(** The number of probes, and of page requests, among the calls made. *)
Fixpoint probes (cs : list Call) : Z :=
  match cs with
  | [] => 0
  | CallHead _ :: cs => 1 + probes cs
  | _ :: cs => probes cs
  end.

Fixpoint fetches (cs : list Call) : Z :=
  match cs with
  | [] => 0
  | CallGet _ _ :: cs => 1 + fetches cs
  | _ :: cs => fetches cs
  end.

(** The last call made belongs to a URL check: it is a probe or the robots
    request that follows one. *)
Definition ends_with_check (cs : list Call) : bool :=
  match cs with
  | CallHead _ :: _ => true
  | CallRobots _ :: CallHead _ :: _ => true
  | _ => false
  end.

(** The counters add up, and every entry counted was probed once. *)
Definition tally {Net : Type} (env : Env Net) (l : Locals) : Prop :=
  successes l + failures l = count l /\ probes (calls env) = count l.

(** The same, when an exception may have interrupted the reading of an
    entry that was already counted. *)
Definition tally_upto {Net : Type} (env : Env Net) (l : Locals) : Prop :=
  successes l + failures l = probes (calls env) /\
  (count l = successes l + failures l \/ count l = successes l + failures l + 1).

(** The same arguments without a limit on the number of requests. *)
Definition unlimited (args : Args) : Args :=
  {| args_endpoint := args_endpoint args; args_n := 0 |}.

(** The run has just checked its [n]-th URL: that check made the last
    network call. *)
Definition limit_hit {Net : Type} (n : Z) (env : Env Net) (l : Locals) : Prop :=
  count l = n /\ ends_with_check (calls env) = true.

(** An entry of a page that has the four fields of a seed. *)
Definition well_formed (collection : pyval) : Prop :=
  exists fields, seed_fields collection = inr fields.

(** The parameters [get_seeds] sends with a request to the endpoint [s]. *)
Definition query (s cluster : string) : option (list (string * string)) :=
  if Py.substring "?" s then None
  else Some [("sourcing", "coherencebot"); ("cluster", cluster)].

(** The lines "Verification succeeded" and "Verification failed" among the
    lines printed. *)
Fixpoint succeeded (out : list Line) : Z :=
  match out with
  | [] => 0
  | VerificationSucceeded _ _ _ _ :: out => 1 + succeeded out
  | _ :: out => succeeded out
  end.

Fixpoint failed (out : list Line) : Z :=
  match out with
  | [] => 0
  | VerificationFailed _ _ _ _ _ _ :: out => 1 + failed out
  | _ :: out => failed out
  end.

(** The report has a row for every failure counted, and standard output a
    line for every success and for every failure counted. *)
Definition reported {Net : Type} (env : Env Net) (l : Locals) : Prop :=
  Z.of_nat (List.length (tsv_file env)) = failures l /\
  succeeded (stdout env) = successes l /\
  failed (stdout env) = failures l.

(** The page number is the number of page requests made, and the count of
    retries is between 0 and 3. *)
Definition paged {Net : Type} (env : Env Net) (l : Locals) : Prop :=
  page l = fetches (calls env) /\ 0 <= retries l <= 3.

(** The same, when an exception may have been raised after the page number
    went up and before the request was made. *)
Definition paged_upto {Net : Type} (env : Env Net) (l : Locals) : Prop :=
  fetches (calls env) <= page l <= fetches (calls env) + 1 /\ 0 <= retries l <= 3.

(** From [env], [l] to [env'], [l']: [k] page requests were made, all
    without response, and nothing else happened. *)
Definition only_requests {Net : Type} (k : Z) (env : Env Net) (l : Locals)
    (env' : Env Net) (l' : Locals) : Prop :=
  fetches (calls env') = fetches (calls env) + k /\
  probes (calls env') = probes (calls env) /\
  tsv_file env' = tsv_file env /\
  page l' = page l + k /\
  count l' = count l /\ successes l' = successes l /\ failures l' = failures l.

(** The URLs probed, newest first. *)
Fixpoint probed (cs : list Call) : list pyval :=
  match cs with
  | [] => []
  | CallHead url :: cs => url :: probed cs
  | _ :: cs => probed cs
  end.

(** The 'url' of the entries of a page that have the fields of a seed. *)
Definition entry_url (collection : pyval) : list pyval :=
  match seed_fields collection with
  | inr (url, _, _, _) => [url]
  | inl _ => []
  end.

Definition urls (results : list pyval) : list pyval := flat_map entry_url results.

(** The number of entries of a page the [for] loop checks, entered with
    the counters [l], when all entries have the fields of a seed: all of
    them without a limit; with a limit, as many as are missing to reach
    it, and one at least, because the limit is tested after the check. *)
Definition processed (args : Args) (l : Locals) (results : list pyval) : nat :=
  if args_n args <=? 0 then List.length results
  else Nat.min (List.length results) (Z.to_nat (Z.max 1 (args_n args - count l))).



(** From [env], [l] to [env'], [l']: the entries [results] were checked,
    each one once and in their order, and nothing else happened. *)
Definition walked {Net : Type} (results : list pyval) (env : Env Net) (l : Locals)
    (env' : Env Net) (l' : Locals) : Prop :=
  count l' = count l + Z.of_nat (List.length results) /\
  successes l' + failures l' =
    successes l + failures l + Z.of_nat (List.length results) /\
  successes l <= successes l' /\ failures l <= failures l' /\
  page l' = page l /\ retries l' = retries l /\
  probed (calls env') = (rev (urls results) ++ probed (calls env))%list /\
  probes (calls env') = probes (calls env) + Z.of_nat (List.length results) /\
  fetches (calls env') = fetches (calls env).


Section Vocabulary.

Context {Net RP : Type} {world : Collaborators Net RP}.

(** The probe of [url] answers 200 and the robots file of its host, once
    read, lets "CoherenceBot" fetch it. *)
Definition robots_allow (env : Env Net) (url : pyval) : Prop :=
  exists n1 response parsed_uri n2 rp,
    requests_head (net env) url 30 false = (n1, inr response) /\
    status_code response = 200 /\
    urlparse url = inr parsed_uri /\
    rp_read n1 (robots_txt parsed_uri) = (n2, inr rp) /\
    rp_crawl_delay rp "*" = None /\
    rp_can_fetch rp "CoherenceBot" url = inr true.

(** The counters are those of [l] with [count] and one of [successes]
    and [failures] one higher. *)
Definition counted_once (l l' : Locals) : Prop :=
  count l' = count l + 1 /\
  page l' = page l /\ retries l' = retries l /\
  ((successes l' = successes l + 1 /\ failures l' = failures l) \/
   (successes l' = successes l /\ failures l' = failures l + 1)).

(** The states the world can be in after URL checks made in the state
    [n]: after any number of probes and of reads of robots files. *)
Inductive checked : Net -> Net -> Prop :=
  | checked_refl (n : Net) : checked n n
  | checked_head (n n' : Net) (url : pyval) :
      checked (fst (requests_head n url 30 false)) n' -> checked n n'
  | checked_robots (n n' : Net) (robots_url : string) :
      checked (fst (rp_read n robots_url)) n' -> checked n n'.

(** The collection, as the API serves it for a cluster from the state [n]
    of the world on: asked for [endpoint], it answers with a page whose
    'results' are [entries], all with the fields of a seed; and, whatever
    checks are made then, asked for the 'next' of that page it serves the
    pages that follow.  Nothing is said of what comes after the last page
    listed. *)
Inductive serves (cluster : string) : Net -> pyval -> list (list pyval) -> Prop :=
  | serves_end (n : Net) (endpoint : pyval) : serves cluster n endpoint []
  | serves_page (n n1 : Net) (s : string) (response : ApiResponse)
        (d : gmap string pyval) (entries : list pyval) (pages : list (list pyval)) :
      requests_get n (PStr s) api_headers (query s cluster) = (n1, inr response) ->
      api_status_code response = 200 ->
      api_json response = inr (PDict d) ->
      d !! "results" = Some (PList entries) ->
      Forall well_formed entries ->
      (forall n2, checked n1 n2 -> serves cluster n2 (default PNone (d !! "next")) pages) ->
      serves cluster n (PStr s) (entries :: pages).

End Vocabulary.

(** * Properties *)

Ltac zbool :=
  repeat rewrite ?andb_true_iff, ?andb_false_iff, ?orb_true_iff, ?negb_true_iff,
    ?negb_false_iff, ?Z.eqb_eq, ?Z.eqb_neq, ?Z.leb_le, ?Z.leb_gt, ?Z.ltb_lt,
    ?Z.ltb_ge, ?Z.geb_le, ?Z.gtb_lt in *.

Ltac split_code c :=
  repeat match goal with
    | |- context [c =? ?k] => destruct (Z.eqb_spec c k)
    | |- context [c >? ?k] => rewrite (Z.gtb_ltb c k); destruct (Z.ltb_spec k c)
    | |- context [c >=? ?k] => rewrite (Z.geb_leb c k); destruct (Z.leb_spec k c)
    | |- context [c <? ?k] => destruct (Z.ltb_spec c k)
    | |- context [c <=? ?k] => destruct (Z.leb_spec c k)
    end; cbn [andb orb negb].

(** The bracket [b] fits the facts about the code in the context. *)
Ltac pick Hb b :=
  eapply (Hb b);
  [ simpl; zbool; lia
  | simpl; try match goal with H : _ !! _ = _ |- _ => rewrite H end; reflexivity
  | reflexivity ].

Lemma in_bracket_unique (b b' : Spec.bracket) (code : Z) :
  Spec.in_bracket b code = true -> Spec.in_bracket b' code = true -> b = b'.
Proof.
  destruct b, b'; simpl; intros H H'; try reflexivity; exfalso; zbool; lia.
Qed.

Lemma lower_Location : lower "Location" = "location".
Proof. reflexivity. Qed.

Section CheckUrl.

Context {Net RP : Type} {world : Collaborators Net RP}.

(** What [check_url] does with a response whose code is not 200: the
    message of the code's bracket. *)
Lemma check_url_bracket (env : Env Net) (url : pyval) (n1 : Net) (response : Response) :
  requests_head (net env) url 30 false = (n1, inr response) ->
  status_code response <> 200 ->
  exists b s,
    Spec.in_bracket b (status_code response) = true /\
    Spec.message b (headers response) = Some s /\
    check_url env url =
      (called (CallHead url) n1 env, (false, status_code response, MsgStr s)).
Proof.
  intros Hhead Hcode. unfold check_url. rewrite Hhead.
  set (c := status_code response) in *.
  unfold headers_contains, headers_getitem. rewrite lower_Location.
  assert (Hb : forall b s,
    Spec.in_bracket b c = true -> Spec.message b (headers response) = Some s ->
    forall r, r = (called (CallHead url) n1 env, (false, c, MsgStr s)) ->
    exists b s, Spec.in_bracket b c = true /\
      Spec.message b (headers response) = Some s /\
      r = (called (CallHead url) n1 env, (false, c, MsgStr s))) by eauto.
  split_code c; try lia.
  all: try (destruct (store (headers response) !! "location") as [v|] eqn:Hloc;
            [rewrite bool_decide_eq_true_2 by eauto
            |rewrite bool_decide_eq_false_2 by (intros [? ?]; discriminate)]).
  all: first
    [ pick Hb Spec.NoContent206 | pick Hb Spec.Other2xx | pick Hb Spec.Redirect3xx
    | pick Hb Spec.BadRequest400 | pick Hb Spec.Unauthorized401
    | pick Hb Spec.PaymentRequired402 | pick Hb Spec.Forbidden403
    | pick Hb Spec.NotFound404 | pick Hb Spec.MethodNotAllowed405
    | pick Hb Spec.NotAcceptable406 | pick Hb Spec.Other4xx
    | pick Hb Spec.Below200 | pick Hb Spec.ServerError5xx ].
Qed.

(** What [check_url] does with a 200: the robots file of the URL's scheme
    and authority is read and the parser asked for "CoherenceBot". *)
Lemma check_url_200 (env : Env Net) (url : pyval) (n1 : Net) (response : Response) :
  requests_head (net env) url 30 false = (n1, inr response) ->
  status_code response = 200 ->
  check_url env url =
    let env := called (CallHead url) n1 env in
    match urlparse url with
    | inl e => (env, (false, 200, except_clauses e))
    | inr parsed_uri =>
        let '(n2, r) := rp_read n1 (robots_txt parsed_uri) in
        let env := called (CallRobots (robots_txt parsed_uri)) n2 env in
        match r with
        | inl e => (env, (false, 200, except_clauses e))
        | inr rp =>
            match rp_crawl_delay rp "*" with
            | Some e => (env, (false, 200, except_clauses e))
            | None =>
                match rp_can_fetch rp "CoherenceBot" url with
                | inl e => (env, (false, 200, except_clauses e))
                | inr true => (env, (true, 200, MsgStr "Accepted"))
                | inr false => (env, (false, 200, MsgStr "Robot exclusion"))
                end
            end
        end
    end.
Proof.
  intros Hhead Hcode. unfold check_url. rewrite Hhead, Hcode. reflexivity.
Qed.

(** A failed check of a well-formed entry is counted as a failure and
    written to the report; the loop goes on. *)
Lemma check_seed_failure (env env' : Env Net) (l : Locals)
    (collection url title uuid org_slug : pyval) (code : Z) (m : msg) :
  seed_fields collection = inr (url, title, uuid, org_slug) ->
  check_url env url = (env', (false, code, m)) ->
  check_seed env l collection =
    (print_row {| row_url := url; row_uuid := uuid; row_org := org_slug;
                  row_code := code; row_msg := m |}
       (print (VerificationFailed (count l + 1) url uuid org_slug code m) env'),
     {| page := page l; count := count l + 1; successes := successes l;
        failures := failures l + 1; retries := retries l |},
     None).
Proof.
  intros Hfields Hcheck. unfold check_seed. rewrite Hfields, Hcheck. reflexivity.
Qed.

(** C2: when the probe raises, [check_url] returns success false, code 0
    and the message of the failure: "Timeout after 30s" for a timeout,
    "Too many redirects" for a redirect chain that is too long, "SSL
    error" for a TLS failure, and the exception, printed as its text, for
    anything else.  The run is not aborted: the entry is counted as a
    failure, reported with code 0, and the loop over the page goes on. *)
Theorem check_url_transport_failure (env : Env Net) (url : pyval) (n1 : Net) (e : exn) :
  requests_head (net env) url 30 false = (n1, inl e) ->
  exists m,
    check_url env url = (called (CallHead url) n1 env, (false, 0, m)) /\
    (exn_class_of e = Timeout -> m = MsgStr "Timeout after 30s") /\
    (exn_class_of e = TooManyRedirects -> m = MsgStr "Too many redirects") /\
    (exn_class_of e = SSLError -> m = MsgStr "SSL error") /\
    (exn_class_of e <> Timeout -> exn_class_of e <> TooManyRedirects ->
     exn_class_of e <> SSLError -> m = MsgExn e /\ str m = exn_str e) /\
    (forall (l : Locals) (collection title uuid org_slug : pyval),
        seed_fields collection = inr (url, title, uuid, org_slug) ->
        exists env',
          check_seed env l collection =
            (env',
             {| page := page l; count := count l + 1; successes := successes l;
                failures := failures l + 1; retries := retries l |},
             None) /\
          tsv_file env' =
            {| row_url := url; row_uuid := uuid; row_org := org_slug;
               row_code := 0; row_msg := m |} :: tsv_file env).
Proof.
  intros Hhead.
  assert (Hcheck : check_url env url =
                     (called (CallHead url) n1 env, (false, 0, except_clauses e))).
  { unfold check_url. rewrite Hhead. reflexivity. }
  exists (except_clauses e). split; [exact Hcheck|].
  unfold except_clauses.
  split; [|split; [|split; [|split]]].
  - intros ->. reflexivity.
  - intros ->. reflexivity.
  - intros ->. reflexivity.
  - destruct (exn_class_of e); intros; split; (reflexivity || congruence).
  - intros l collection title uuid org_slug Hfields.
    eexists. split.
    + apply (check_seed_failure _ _ _ _ _ _ _ _ _ _ Hfields Hcheck).
    + reflexivity.
Qed.

(** C3, as amended: for a URL whose probe answers 200, the robots file
    requested is scheme://authority/robots.txt of the URL, whatever its
    path and query.  When reading it raises, the URL is a failure with
    code 200 and the message of the exception; when it is read, the
    parser's answer for "CoherenceBot" decides between success and "Robot
    exclusion". *)
Theorem robots_file_consulted (env : Env Net) (url : pyval) (n1 : Net)
    (response : Response) (parsed_uri : ParseResult) :
  requests_head (net env) url 30 false = (n1, inr response) ->
  status_code response = 200 ->
  urlparse url = inr parsed_uri ->
  let robots_url := scheme parsed_uri +:+ "://" +:+ netloc parsed_uri +:+ "/robots.txt" in
  calls (fst (check_url env url)) = CallRobots robots_url :: CallHead url :: calls env /\
  (forall n2 e,
      rp_read n1 robots_url = (n2, inl e) ->
      snd (check_url env url) = (false, 200, except_clauses e)) /\
  (forall n2 rp,
      rp_read n1 robots_url = (n2, inr rp) ->
      rp_crawl_delay rp "*" = None ->
      (rp_can_fetch rp "CoherenceBot" url = inr true ->
       snd (check_url env url) = (true, 200, MsgStr "Accepted")) /\
      (rp_can_fetch rp "CoherenceBot" url = inr false ->
       snd (check_url env url) = (false, 200, MsgStr "Robot exclusion"))).
Proof.
  intros Hhead Hcode Hparse robots_url.
  rewrite (check_url_200 _ _ _ _ Hhead Hcode), Hparse.
  fold (robots_txt parsed_uri) in robots_url. subst robots_url. cbn zeta.
  destruct (rp_read n1 (robots_txt parsed_uri)) as [n2 r] eqn:Hread.
  split; [|split].
  - destruct r as [e|rp]; [reflexivity|].
    destruct (rp_crawl_delay rp "*"); [reflexivity|].
    destruct (rp_can_fetch rp "CoherenceBot" url) as [e|[|]]; reflexivity.
  - intros n2' e [= -> ->]. reflexivity.
  - intros n2' rp [= -> ->] Hdelay. rewrite Hdelay.
    split; intros ->; reflexivity.
Qed.

(** C4: the classification of the status code is total and deterministic.
    Whatever the code and the headers of the response, the code is in
    exactly one bracket of the specification, and [check_url] returns the
    message of that bracket with the code observed; codes without a case
    of their own get the message of the range around them.  For 200, the
    candidate success, the robots check decides the message. *)
Theorem classification_total (env : Env Net) (url : pyval) (n1 : Net) (response : Response) :
  requests_head (net env) url 30 false = (n1, inr response) ->
  exists b,
    Spec.in_bracket b (status_code response) = true /\
    (forall b', Spec.in_bracket b' (status_code response) = true -> b' = b) /\
    match Spec.message b (headers response) with
    | Some s => snd (check_url env url) = (false, status_code response, MsgStr s)
    | None =>
        status_code response = 200 /\
        (snd (check_url env url) = (true, 200, MsgStr "Accepted") \/
         snd (check_url env url) = (false, 200, MsgStr "Robot exclusion") \/
         exists e, snd (check_url env url) = (false, 200, except_clauses e))
    end.
Proof.
  intros Hhead.
  destruct (Z.eq_dec (status_code response) 200) as [Hcode|Hcode].
  - exists Spec.Ok200. split; [simpl; zbool; exact Hcode|]. split.
    + intros b' Hb'. apply (in_bracket_unique _ _ (status_code response)); [exact Hb'|].
      simpl; zbool; exact Hcode.
    + simpl. split; [exact Hcode|].
      rewrite (check_url_200 _ _ _ _ Hhead Hcode). cbn zeta.
      destruct (urlparse url) as [e|parsed_uri]; [right; right; eauto|].
      destruct (rp_read n1 (robots_txt parsed_uri)) as [n2 [e|rp]];
        [right; right; eauto|].
      destruct (rp_crawl_delay rp "*") as [e|]; [right; right; eauto|].
      destruct (rp_can_fetch rp "CoherenceBot" url) as [e|[|]]; simpl; eauto.
  - destruct (check_url_bracket _ _ _ _ Hhead Hcode) as (b & s & Hin & Hmsg & Hcheck).
    exists b. split; [exact Hin|]. split.
    + intros b' Hb'. exact (in_bracket_unique _ _ _ Hb' Hin).
    + rewrite Hmsg, Hcheck. reflexivity.
Qed.

(** C6: when the probe answers 200 and the robots file of the host, once
    read, does not let "CoherenceBot" fetch the URL, [check_url] returns
    success false, the code 200 and the message "Robot exclusion". *)
Theorem robot_exclusion (env : Env Net) (url : pyval) (n1 n2 : Net)
    (response : Response) (parsed_uri : ParseResult) (rp : RP) :
  requests_head (net env) url 30 false = (n1, inr response) ->
  status_code response = 200 ->
  urlparse url = inr parsed_uri ->
  rp_read n1 (robots_txt parsed_uri) = (n2, inr rp) ->
  rp_crawl_delay rp "*" = None ->
  rp_can_fetch rp "CoherenceBot" url = inr false ->
  snd (check_url env url) = (false, 200, MsgStr "Robot exclusion").
Proof.
  intros Hhead Hcode Hparse Hread Hdelay Hfetch.
  rewrite (check_url_200 _ _ _ _ Hhead Hcode), Hparse. cbn zeta.
  rewrite Hread, Hdelay, Hfetch. reflexivity.
Qed.

(** C7: for a response with a code from 300 to 399, [check_url] returns
    success false and, as message, the value of the Location header when
    the response has one (header names are compared without case, so the
    header is the entry "location" of the store) and "Redirect without
    location" when it has none. *)
Theorem redirect_message (env : Env Net) (url : pyval) (n1 : Net) (response : Response) :
  requests_head (net env) url 30 false = (n1, inr response) ->
  300 <= status_code response <= 399 ->
  (forall location,
      store (headers response) !! "location" = Some location ->
      snd (check_url env url) = (false, status_code response, MsgStr location)) /\
  (store (headers response) !! "location" = None ->
   snd (check_url env url) =
     (false, status_code response, MsgStr "Redirect without location")).
Proof.
  intros Hhead Hcode.
  destruct (check_url_bracket env url n1 response Hhead ltac:(lia))
    as (b & s & Hin & Hmsg & Hcheck).
  assert (b = Spec.Redirect3xx) as ->.
  { apply (in_bracket_unique _ _ _ Hin). simpl; zbool; lia. }
  rewrite Hcheck. simpl in Hmsg |- *.
  split.
  - intros location Hloc. rewrite Hloc in Hmsg. congruence.
  - intros Hloc. rewrite Hloc in Hmsg. congruence.
Qed.

(** C9: [check_url] never raises: for every URL and every behaviour of
    the probe and of the robots check it returns its three values.
    Success is true exactly when the probe answered 200 and the robots
    check let "CoherenceBot" fetch the URL, and then the code is 200 and
    the message "Accepted". *)
Theorem check_url_total (env : Env Net) (url : pyval) :
  exists env' success code m,
    check_url env url = (env', (success, code, m)) /\
    (success = true <-> robots_allow env url) /\
    (success = true -> code = 200 /\ m = MsgStr "Accepted").
Proof.
  destruct (check_url env url) as [env' [[success code] m]] eqn:Hcheck.
  exists env', success, code, m. split; [reflexivity|].
  unfold robots_allow.
  destruct (requests_head (net env) url 30 false) as [n1 [e|response]] eqn:Hhead.
  { unfold check_url in Hcheck. rewrite Hhead in Hcheck.
    injection Hcheck as <- <- <- <-.
    split; [split|]; [discriminate| |discriminate].
    intros (? & ? & ? & ? & ? & [=] & _). }
  destruct (Z.eq_dec (status_code response) 200) as [Hcode|Hcode].
  2:{ destruct (check_url_bracket _ _ _ _ Hhead Hcode) as (b & s & _ & _ & Hb).
      rewrite Hb in Hcheck. injection Hcheck as <- <- <- <-.
      split; [split|]; [discriminate| |discriminate].
      intros (? & r & ? & ? & ? & [= <- <-] & ? & _). contradiction. }
  rewrite (check_url_200 _ _ _ _ Hhead Hcode) in Hcheck. cbn zeta in Hcheck.
  destruct (urlparse url) as [e|parsed_uri] eqn:Hparse.
  { injection Hcheck as <- <- <- <-.
    split; [split|]; [discriminate| |discriminate].
    intros (? & ? & ? & ? & ? & _ & _ & [=] & _). }
  destruct (rp_read n1 (robots_txt parsed_uri)) as [n2 [e|rp]] eqn:Hread.
  { injection Hcheck as <- <- <- <-.
    split; [split|]; [discriminate| |discriminate].
    intros (? & ? & ? & ? & ? & [= <- <-] & _ & [= <-] & Hr & _).
    rewrite Hread in Hr. discriminate. }
  destruct (rp_crawl_delay rp "*") as [e|] eqn:Hdelay.
  { injection Hcheck as <- <- <- <-.
    split; [split|]; [discriminate| |discriminate].
    intros (? & ? & ? & ? & ? & [= <- <-] & _ & [= <-] & Hr & Hd & _).
    rewrite Hread in Hr. injection Hr as <- <-. congruence. }
  destruct (rp_can_fetch rp "CoherenceBot" url) as [e|[|]] eqn:Hfetch;
    injection Hcheck as <- <- <- <-.
  - split; [split|]; [discriminate| |discriminate].
    intros (? & ? & ? & ? & ? & [= <- <-] & _ & [= <-] & Hr & _ & Hf).
    rewrite Hread in Hr. injection Hr as <- <-. congruence.
  - split; [split|]; [|reflexivity|auto].
    intros _. exists n1, response, parsed_uri, n2, rp. repeat split; assumption.
  - split; [split|]; [discriminate| |discriminate].
    intros (? & ? & ? & ? & ? & [= <- <-] & _ & [= <-] & Hr & _ & Hf).
    rewrite Hread in Hr. injection Hr as <- <-. congruence.
Qed.

End CheckUrl.

Section MainLoop.

Context {Net RP : Type} {world : Collaborators Net RP}.

(** *** What the calls of [get_seeds] and [check_url] leave behind *)

Lemma get_seeds_effect (env env' : Env Net) (endpoint : pyval) (cluster : string)
    (r : exn + pyval) :
  get_seeds env endpoint cluster = (env', r) ->
  probes (calls env') = probes (calls env) /\ tsv_file env' = tsv_file env.
Proof.
  unfold get_seeds.
  destruct (Py.contains endpoint "?") as [e|has_params]; [intros [= <- <-]; auto|].
  destruct (requests_get _ _ _ _) as [n1 [e|response]]; [intros [= <- <-]; auto|].
  destruct (api_status_code response =? 200); [|intros [= <- <-]; auto].
  destruct (api_json response); intros [= <- <-]; auto.
Qed.

Lemma check_url_effect (env : Env Net) (url : pyval) :
  probes (calls (fst (check_url env url))) = probes (calls env) + 1 /\
  ends_with_check (calls (fst (check_url env url))) = true /\
  tsv_file (fst (check_url env url)) = tsv_file env.
Proof.
  destruct (requests_head (net env) url 30 false) as [n1 [e|response]] eqn:Hhead.
  { unfold check_url. rewrite Hhead. simpl. repeat split; lia. }
  destruct (Z.eq_dec (status_code response) 200) as [Hcode|Hcode].
  - rewrite (check_url_200 _ _ _ _ Hhead Hcode). cbn zeta.
    destruct (urlparse url) as [e|parsed_uri]; [simpl; repeat split; lia|].
    destruct (rp_read n1 (robots_txt parsed_uri)) as [n2 [e|rp]];
      [simpl; repeat split; lia|].
    destruct (rp_crawl_delay rp "*") as [e|]; [simpl; repeat split; lia|].
    destruct (rp_can_fetch rp "CoherenceBot" url) as [e|[|]];
      simpl; repeat split; lia.
  - destruct (check_url_bracket _ _ _ _ Hhead Hcode) as (b & s & _ & _ & ->).
    simpl. repeat split; lia.
Qed.

(** *** One entry of a page *)

(** The entry was checked: it is counted once, as a success or as a
    failure, and was probed once. *)
Lemma check_seed_checked (env env' : Env Net) (l l' : Locals) (collection : pyval) :
  check_seed env l collection = (env', l', None) ->
  counted_once l l' /\
  probes (calls env') = probes (calls env) + 1 /\
  ends_with_check (calls env') = true.
Proof.
  unfold check_seed, counted_once.
  destruct (seed_fields collection) as [e|[[[url title] uuid] org_slug]]; [discriminate|].
  pose proof (check_url_effect env url) as (Hprobes & Hends & _).
  destruct (check_url env url) as [env1 [[[|] code] m]];
    intros [= <- <-]; simpl in *; repeat split; auto; lia.
Qed.

(** The entry could not be read: it is counted, and nothing else
    happened. *)
Lemma check_seed_raised (env env' : Env Net) (l l' : Locals) (collection : pyval) (e : exn) :
  check_seed env l collection = (env', l', Some e) ->
  env' = env /\ count l' = count l + 1 /\
  successes l' = successes l /\ failures l' = failures l.
Proof.
  unfold check_seed.
  destruct (seed_fields collection) as [e'|[[[url title] uuid] org_slug]].
  - intros [= <- <- _]. auto.
  - destruct (check_url env url) as [env1 [[[|] code] m]]; discriminate.
Qed.

(** *** The counters add up *)

Lemma tally_tally_upto (env : Env Net) (l : Locals) : tally env l -> tally_upto env l.
Proof. unfold tally, tally_upto. lia. Qed.

Lemma for_collection_tally (args : Args) (results : list pyval) :
  forall (env : Env Net) (l : Locals),
    tally env l ->
    match for_collection args env l results with
    | (env', l', None) => tally env' l'
    | (env', l', Some _) => tally_upto env' l'
    end.
Proof.
  induction results as [|collection rest IH]; intros env l Ht; simpl; [exact Ht|].
  destruct (check_seed env l collection) as [[env1 l1] [e|]] eqn:Hseed.
  - apply check_seed_raised in Hseed as (-> & Hcount & Hs & Hf).
    destruct Ht as [Hsum Hprobes]. unfold tally_upto. lia.
  - apply check_seed_checked in Hseed as (Hc & Hp & _).
    assert (Ht1 : tally env1 l1).
    { destruct Ht as [Hsum Hprobes], Hc as (Hcount & _ & _ & Hone).
      unfold tally. lia. }
    destruct (max_reached args l1); [exact Ht1|].
    apply IH. exact Ht1.
Qed.

Lemma while_body_tally (args : Args) (cluster : string) (env : Env Net) (l : Locals)
    (endpoint : pyval) :
  tally env l ->
  match while_body args cluster env l endpoint with
  | Continue env' l' _ | Break env' l' => tally env' l'
  | Raise env' l' _ => tally_upto env' l'
  end.
Proof.
  intros Ht. unfold while_body.
  destruct (get_seeds _ endpoint cluster) as [env1 r] eqn:Hget.
  apply get_seeds_effect in Hget as [Hprobes _]. simpl in Hprobes.
  assert (Ht1 : forall p r,
             tally env1 {| page := p; count := count l; successes := successes l;
                           failures := failures l; retries := r |}).
  { intros p r'. destruct Ht. unfold tally; simpl. lia. }
  pose proof (fun p r => tally_tally_upto _ _ (Ht1 p r)) as Hu1.
  destruct r as [e|api_response]; [apply Hu1|].
  destruct (negb (Py.truthy api_response)).
  { simpl. destruct (retries l + 1 >? 3); apply Ht1. }
  destruct (Py.contains api_response "next") as [e|has_next]; [apply Hu1|].
  destruct (if has_next then Py.getitem api_response "next" else inr PNone)
    as [e|endpoint']; [apply Hu1|].
  destruct (Py.contains api_response "results") as [e|[|]]; [apply Hu1| |apply Ht1].
  destruct (Py.getitem api_response "results") as [e|results]; [apply Hu1|].
  destruct (Py.iter results) as [e|results']; [apply Hu1|].
  pose proof (for_collection_tally args results' env1 _ (Ht1 (page l + 1) (retries l)))
    as Hfor.
  destruct (for_collection args env1 _ results') as [[env2 l2] [e|]]; [exact Hfor|].
  destruct (max_reached args l2); exact Hfor.
Qed.

Lemma while_endpoint_tally (args : Args) (cluster : string) (fuel : nat) :
  forall (env : Env Net) (l : Locals) (endpoint : pyval),
    tally env l ->
    match while_endpoint fuel args cluster env l endpoint with
    | Done env' l' => tally env' l'
    | Raised env' l' _ => tally_upto env' l'
    | OutOfFuel => True
    end.
Proof.
  induction fuel as [|fuel IH]; intros env l endpoint Ht.
  - destruct endpoint; simpl; auto.
  - pose proof (while_body_tally args cluster env l endpoint Ht) as Hbody.
    assert (Hturn :
      match
        match while_body args cluster env l endpoint with
        | Continue env1 l1 endpoint1 => while_endpoint fuel args cluster env1 l1 endpoint1
        | Break env1 l1 => Done env1 l1
        | Raise env1 l1 e => Raised env1 l1 e
        end
      with
      | Done env' l' => tally env' l'
      | Raised env' l' _ => tally_upto env' l'
      | OutOfFuel => True
      end).
    { destruct (while_body args cluster env l endpoint) as [env1 l1 ep|env1 l1|env1 l1 e].
      - apply IH. exact Hbody.
      - exact Hbody.
      - exact Hbody. }
    destruct endpoint; simpl; try exact Hturn. exact Ht.
Qed.

Lemma for_cluster_tally (args : Args) (fuel : nat) (cs : list string) :
  forall (env : Env Net) (l : Locals),
    tally env l ->
    match for_cluster fuel args env l cs with
    | Done env' l' => tally env' l'
    | Raised env' l' _ => tally_upto env' l'
    | OutOfFuel => True
    end.
Proof.
  induction cs as [|cluster rest IH]; intros env l Ht; simpl; [exact Ht|].
  pose proof (while_endpoint_tally args cluster fuel env l (PStr (args_endpoint args)) Ht)
    as Hwhile.
  destruct (while_endpoint fuel args cluster env l (PStr (args_endpoint args)))
    as [env1 l1|env1 l1 e|]; [|exact Hwhile|exact I].
  destruct (max_reached args l1); [exact Hwhile|].
  apply IH. exact Hwhile.
Qed.

Lemma try_block_tally (fuel : nat) (args : Args) (n0 : Net) :
  match try_block fuel args n0 with
  | Done env l => tally env l
  | Raised env l _ => tally_upto env l
  | OutOfFuel => True
  end.
Proof.
  unfold try_block. apply for_cluster_tally. unfold tally. simpl. lia.
Qed.

(** *** The limit on the number of requests *)

Lemma max_reached_unlimited (args : Args) (l : Locals) :
  max_reached (unlimited args) l = false.
Proof. reflexivity. Qed.

Lemma max_reached_below (args : Args) (l : Locals) :
  count l < args_n args -> max_reached args l = false.
Proof. intros H. unfold max_reached. zbool. lia. Qed.

Lemma max_reached_at (args : Args) (l : Locals) :
  0 < args_n args -> args_n args <= count l -> max_reached args l = true.
Proof. intros H1 H2. unfold max_reached. zbool. lia. Qed.

(** Up to its limit, a run does what the run without limit does. *)
Lemma for_collection_limit (args : Args) (results : list pyval) :
  0 < args_n args ->
  forall (env : Env Net) (l : Locals),
    count l < args_n args ->
    (for_collection args env l results = for_collection (unlimited args) env l results /\
     match for_collection args env l results with
     | (_, l', None) => count l' < args_n args
     | (_, l', Some _) => count l' <= args_n args
     end) \/
    (exists env' l',
        for_collection args env l results = (env', l', None) /\
        limit_hit (args_n args) env' l').
Proof.
  intros Hn.
  induction results as [|collection rest IH]; intros env l Hl; simpl; [left; auto|].
  destruct (check_seed env l collection) as [[env1 l1] [e|]] eqn:Hseed.
  - apply check_seed_raised in Hseed as (_ & Hcount & _). left. split; [reflexivity|lia].
  - apply check_seed_checked in Hseed as ((Hcount & _) & _ & Hends).
    rewrite ?max_reached_unlimited.
    destruct (Z_lt_le_dec (count l1) (args_n args)) as [Hlt|Hge].
    + rewrite (max_reached_below _ _ Hlt). apply IH. exact Hlt.
    + rewrite (max_reached_at _ _ Hn Hge). right.
      exists env1, l1. split; [reflexivity|]. split; [lia|exact Hends].
Qed.

Lemma while_body_limit (args : Args) (cluster : string) (env : Env Net) (l : Locals)
    (endpoint : pyval) :
  0 < args_n args ->
  count l < args_n args ->
  (while_body args cluster env l endpoint =
     while_body (unlimited args) cluster env l endpoint /\
   match while_body args cluster env l endpoint with
   | Continue _ l' _ | Break _ l' => count l' < args_n args
   | Raise _ l' _ => count l' <= args_n args
   end) \/
  (exists env' l',
      while_body args cluster env l endpoint = Break env' l' /\
      limit_hit (args_n args) env' l').
Proof.
  intros Hn Hl. unfold while_body.
  destruct (get_seeds _ endpoint cluster) as [env1 [e|api_response]];
    [left; simpl; split; [reflexivity|lia]|].
  destruct (negb (Py.truthy api_response)).
  { left. simpl. destruct (retries l + 1 >? 3); simpl; split; (reflexivity || lia). }
  destruct (Py.contains api_response "next") as [e|has_next];
    [left; simpl; split; [reflexivity|lia]|].
  destruct (if has_next then Py.getitem api_response "next" else inr PNone)
    as [e|endpoint']; [left; simpl; split; [reflexivity|lia]|].
  destruct (Py.contains api_response "results") as [e|[|]];
    [left; simpl; split; [reflexivity|lia]| |left; simpl; split; [reflexivity|lia]].
  destruct (Py.getitem api_response "results") as [e|results];
    [left; simpl; split; [reflexivity|lia]|].
  destruct (Py.iter results) as [e|results'];
    [left; simpl; split; [reflexivity|lia]|].
  set (l1 := {| page := page l + 1; count := count l; successes := successes l;
                failures := failures l; retries := retries l |}).
  destruct (for_collection_limit args results' Hn env1 l1 Hl)
    as [[Heq Hr]|(env' & l' & Heq & Hhit)].
  - rewrite <- Heq.
    destruct (for_collection args env1 l1 results') as [[env2 l2] [e|]];
      [left; split; [reflexivity|exact Hr]|].
    rewrite ?max_reached_unlimited, (max_reached_below _ _ Hr).
    left. split; [reflexivity|exact Hr].
  - rewrite Heq. destruct Hhit as [Hcount Hends].
    rewrite (max_reached_at args l' Hn) by lia.
    right. exists env', l'. split; [reflexivity|]. split; assumption.
Qed.

Lemma while_endpoint_limit (args : Args) (cluster : string) (fuel : nat) :
  0 < args_n args ->
  forall (env : Env Net) (l : Locals) (endpoint : pyval),
    count l < args_n args ->
    (while_endpoint fuel args cluster env l endpoint =
       while_endpoint fuel (unlimited args) cluster env l endpoint /\
     match while_endpoint fuel args cluster env l endpoint with
     | Done _ l' => count l' < args_n args
     | Raised _ l' _ => count l' <= args_n args
     | OutOfFuel => True
     end) \/
    (exists env' l',
        while_endpoint fuel args cluster env l endpoint = Done env' l' /\
        limit_hit (args_n args) env' l').
Proof.
  intros Hn.
  induction fuel as [|fuel IH]; intros env l endpoint Hl.
  - left. destruct endpoint; simpl; auto.
  - assert (Hturn :
      (match while_body args cluster env l endpoint with
       | Continue env1 l1 endpoint1 => while_endpoint fuel args cluster env1 l1 endpoint1
       | Break env1 l1 => Done env1 l1
       | Raise env1 l1 e => Raised env1 l1 e
       end =
       match while_body (unlimited args) cluster env l endpoint with
       | Continue env1 l1 endpoint1 =>
           while_endpoint fuel (unlimited args) cluster env1 l1 endpoint1
       | Break env1 l1 => Done env1 l1
       | Raise env1 l1 e => Raised env1 l1 e
       end /\
       match
         match while_body args cluster env l endpoint with
         | Continue env1 l1 endpoint1 => while_endpoint fuel args cluster env1 l1 endpoint1
         | Break env1 l1 => Done env1 l1
         | Raise env1 l1 e => Raised env1 l1 e
         end
       with
       | Done _ l' => count l' < args_n args
       | Raised _ l' _ => count l' <= args_n args
       | OutOfFuel => True
       end) \/
      (exists env' l',
          match while_body args cluster env l endpoint with
          | Continue env1 l1 endpoint1 => while_endpoint fuel args cluster env1 l1 endpoint1
          | Break env1 l1 => Done env1 l1
          | Raise env1 l1 e => Raised env1 l1 e
          end = Done env' l' /\
          limit_hit (args_n args) env' l')).
    { destruct (while_body_limit args cluster env l endpoint Hn Hl)
        as [[Heq Hr]|(env' & l' & Heq & Hhit)].
      - rewrite <- Heq.
        destruct (while_body args cluster env l endpoint) as [env1 l1 ep|env1 l1|env1 l1 e].
        + apply IH. exact Hr.
        + left. split; [reflexivity|exact Hr].
        + left. split; [reflexivity|exact Hr].
      - rewrite Heq. right. exists env', l'. split; [reflexivity|exact Hhit]. }
    destruct endpoint; simpl; try exact Hturn. left. auto.
Qed.

Lemma for_cluster_limit (args : Args) (fuel : nat) (cs : list string) :
  0 < args_n args ->
  forall (env : Env Net) (l : Locals),
    count l < args_n args ->
    (for_cluster fuel args env l cs = for_cluster fuel (unlimited args) env l cs /\
     match for_cluster fuel args env l cs with
     | Done _ l' => count l' < args_n args
     | Raised _ l' _ => count l' <= args_n args
     | OutOfFuel => True
     end) \/
    (exists env' l',
        for_cluster fuel args env l cs = Done env' l' /\
        limit_hit (args_n args) env' l').
Proof.
  intros Hn.
  induction cs as [|cluster rest IH]; intros env l Hl; simpl; [left; auto|].
  change (args_endpoint (unlimited args)) with (args_endpoint args).
  destruct (while_endpoint_limit args cluster fuel Hn env l (PStr (args_endpoint args)) Hl)
    as [[Heq Hr]|(env' & l' & Heq & Hhit)].
  - rewrite <- Heq.
    destruct (while_endpoint fuel args cluster env l (PStr (args_endpoint args)))
      as [env1 l1|env1 l1 e|];
      [|left; split; [reflexivity|exact Hr]|left; split; [reflexivity|exact I]].
    rewrite ?max_reached_unlimited, (max_reached_below _ _ Hr).
    apply IH. exact Hr.
  - rewrite Heq. destruct Hhit as [Hcount Hends].
    rewrite (max_reached_at args l' Hn) by lia.
    right. eexists _, l'. split; [reflexivity|]. split; assumption.
Qed.

(** Without a limit, every entry of a page that has the fields of a
    seed is checked. *)
Lemma check_seed_well_formed (env : Env Net) (l : Locals) (collection : pyval) :
  well_formed collection ->
  exists env' l', check_seed env l collection = (env', l', None).
Proof.
  intros [[[[url title] uuid] org_slug] Hfields]. unfold check_seed. rewrite Hfields.
  destruct (check_url env url) as [env1 [[[|] code] m]]; eauto.
Qed.

Lemma for_collection_unlimited (args : Args) (results : list pyval) :
  Forall well_formed results ->
  forall (env : Env Net) (l : Locals),
  exists env' l',
    for_collection (unlimited args) env l results = (env', l', None) /\
    count l' = count l + Z.of_nat (List.length results).
Proof.
  induction 1 as [|collection rest Hwf _ IH]; intros env l; simpl.
  - exists env, l. split; [reflexivity|lia].
  - destruct (check_seed_well_formed env l collection Hwf) as (env1 & l1 & Hseed).
    rewrite Hseed, ?max_reached_unlimited.
    apply check_seed_checked in Hseed as ((Hcount & _) & _).
    destruct (IH env1 l1) as (env' & l' & Hfor & Hc).
    exists env', l'. split; [exact Hfor|lia].
Qed.

(** With a limit N > 0, a run does what the run without limit does, up to
    its N-th check: when the run without limit returns with more than N
    URLs checked, the run with the limit returns with N URLs checked, and
    its last network call is part of the N-th check. *)
Lemma limit_cuts_the_unlimited_run (fuel : nat) (args : Args) (n0 : Net) (env0 : Env Net) (l0 : Locals) :
  0 < args_n args ->
  main fuel (unlimited args) n0 = Some (env0, l0) ->
  args_n args < count l0 ->
  (exists env l,
      main fuel args n0 = Some (env, l) /\
      count l = args_n args /\
      probes (calls env) = args_n args /\
      ends_with_check (calls env) = true) /\
  (forall l, max_reached (unlimited args) l = false) /\
  (forall (env : Env Net) (l : Locals) (results : list pyval),
      Forall well_formed results ->
      exists env' l',
        for_collection (unlimited args) env l results = (env', l', None) /\
        count l' = count l + Z.of_nat (List.length results)).
Proof.
  intros Hn Hmain Hmore.
  split; [|split; [apply max_reached_unlimited|intros; now apply for_collection_unlimited]].
  unfold main in *.
  pose proof (try_block_tally fuel args n0) as Ht.
  unfold try_block in *.
  set (env1 := {| net := n0; calls := []; stdout := []; tsv_file := [] |}) in *.
  set (l1 := {| page := 0; count := 0; successes := 0; failures := 0; retries := 0 |}) in *.
  destruct (for_cluster_limit args fuel clusters Hn env1 l1 Hn)
    as [[Heq Hr]|(env' & l' & Heq & Hcount & Hends)].
  - exfalso. rewrite <- Heq in Hmain.
    destruct (for_cluster fuel args env1 l1 clusters) as [env2 l2|env2 l2 e|];
      [| |discriminate]; unfold finish in Hmain; injection Hmain as _ <-; lia.
  - rewrite Heq in Ht |- *. destruct Ht as [_ Hprobes].
    eexists _, l'. split; [reflexivity|].
    split; [exact Hcount|].
    unfold finish. simpl. destruct (count l' >? 0); simpl; split; (lia || exact Hends).
Qed.

(** *** Failed page requests *)

(** A page request without a response counts one retry and is made again,
    until the count passes three: then the cluster is given up and the
    count starts again from zero.  Nothing else resets the count. *)
Lemma while_body_no_response (args : Args) (cluster : string) (env env1 : Env Net)
    (l : Locals) (endpoint api_response : pyval) :
  get_seeds (print (Checking cluster (page l + 1) (successes l) (failures l)) env)
    endpoint cluster = (env1, inr api_response) ->
  Py.truthy api_response = false ->
  while_body args cluster env l endpoint =
    if retries l + 1 >? 3 then
      Break (print (FailureAfterThreeRetries endpoint) (print (NoResponse endpoint) env1))
        {| page := page l + 1; count := count l; successes := successes l;
           failures := failures l; retries := 0 |}
    else
      Continue (print (NoResponse endpoint) env1)
        {| page := page l + 1; count := count l; successes := successes l;
           failures := failures l; retries := retries l + 1 |}
        endpoint.
Proof.
  intros Hget Hfalse. unfold while_body. simpl page. simpl successes. simpl failures.
  rewrite Hget, Hfalse. reflexivity.
Qed.

Lemma check_seed_retries (env : Env Net) (l : Locals) (collection : pyval) :
  retries (snd (fst (check_seed env l collection))) = retries l.
Proof.
  unfold check_seed.
  destruct (seed_fields collection) as [e|[[[url title] uuid] org_slug]]; [reflexivity|].
  destruct (check_url env url) as [env1 [[[|] code] m]]; reflexivity.
Qed.

Lemma for_collection_retries (args : Args) (results : list pyval) :
  forall (env : Env Net) (l : Locals),
    retries (snd (fst (for_collection args env l results))) = retries l.
Proof.
  induction results as [|collection rest IH]; intros env l; simpl; [reflexivity|].
  pose proof (check_seed_retries env l collection) as Hr.
  destruct (check_seed env l collection) as [[env1 l1] [e|]]; simpl in Hr; [exact Hr|].
  destruct (max_reached args l1); simpl; [exact Hr|].
  rewrite IH. exact Hr.
Qed.

(** A page that arrives leaves the count of retries as it was. *)
Lemma while_body_keeps_retries (args : Args) (cluster : string) (env env1 : Env Net)
    (l : Locals) (endpoint api_response : pyval) :
  get_seeds (print (Checking cluster (page l + 1) (successes l) (failures l)) env)
    endpoint cluster = (env1, inr api_response) ->
  Py.truthy api_response = true ->
  match while_body args cluster env l endpoint with
  | Continue _ l' _ | Break _ l' | Raise _ l' _ => retries l' = retries l
  end.
Proof.
  intros Hget Htrue. unfold while_body. simpl page. simpl successes. simpl failures.
  rewrite Hget, Htrue. cbn [negb].
  destruct (Py.contains api_response "next") as [e|has_next]; [reflexivity|].
  destruct (if has_next then Py.getitem api_response "next" else inr PNone)
    as [e|endpoint']; [reflexivity|].
  destruct (Py.contains api_response "results") as [e|[|]]; [reflexivity| |reflexivity].
  destruct (Py.getitem api_response "results") as [e|results]; [reflexivity|].
  destruct (Py.iter results) as [e|results']; [reflexivity|].
  match goal with
  | |- context [for_collection args env1 ?l1 results'] =>
      pose proof (for_collection_retries args results' env1 l1) as Hr
  end.
  destruct (for_collection args env1 _ results') as [[env2 l2] [e|]];
    simpl in Hr; [exact Hr|].
  destruct (max_reached args l2); exact Hr.
Qed.

(** *** Pages without results, pages without next *)

Lemma while_endpoint_None (fuel : nat) (args : Args) (cluster : string)
    (env : Env Net) (l : Locals) :
  while_endpoint fuel args cluster env l PNone = Done env l.
Proof. destruct fuel; reflexivity. Qed.

Lemma while_endpoint_turn (fuel : nat) (args : Args) (cluster : string)
    (env : Env Net) (l : Locals) (endpoint : pyval) :
  endpoint <> PNone ->
  while_endpoint (S fuel) args cluster env l endpoint =
    match while_body args cluster env l endpoint with
    | Continue env1 l1 endpoint1 => while_endpoint fuel args cluster env1 l1 endpoint1
    | Break env1 l1 => Done env1 l1
    | Raise env1 l1 e => Raised env1 l1 e
    end.
Proof. destruct endpoint; [contradiction|reflexivity..]. Qed.

Lemma truthy_dict (d : gmap string pyval) : d <> ∅ -> Py.truthy (PDict d) = true.
Proof.
  intros Hd. simpl. apply negb_true_iff, Nat.eqb_neq.
  intros Hsize. apply Hd, map_size_empty_iff. exact Hsize.
Qed.

(** C10, as amended: a page fetched as a JSON object that is not empty
    and has no key 'results' leaves the counters and the report file as
    they were, and the loop goes on with the value of the page's 'next'
    (with None when there is no such key, which ends the loop).  After a
    page that is a non-empty object without the key 'next', no further
    turn of the loop is made for the cluster. *)
Theorem page_without_results (fuel : nat) (args : Args) (cluster : string)
    (env env1 : Env Net) (l : Locals) (endpoint : pyval) (d : gmap string pyval) :
  get_seeds (print (Checking cluster (page l + 1) (successes l) (failures l)) env)
    endpoint cluster = (env1, inr (PDict d)) ->
  d <> ∅ ->
  tsv_file env1 = tsv_file env /\
  (d !! "results" = None ->
   while_endpoint (S fuel) args cluster env l endpoint =
     while_endpoint fuel args cluster env1
       {| page := page l + 1; count := count l; successes := successes l;
          failures := failures l; retries := retries l |}
       (default PNone (d !! "next"))) /\
  (d !! "next" = None ->
   while_endpoint (S fuel) args cluster env l endpoint =
     while_endpoint 1 args cluster env l endpoint /\
   while_endpoint 1 args cluster env l endpoint <> OutOfFuel).
Proof.
  intros Hget Hd.
  assert (Hep : endpoint <> PNone).
  { intros ->. unfold get_seeds in Hget. simpl in Hget. discriminate. }
  assert (Hbody : while_body args cluster env l endpoint =
    let l1 := {| page := page l + 1; count := count l; successes := successes l;
                 failures := failures l; retries := retries l |} in
    let endpoint1 := default PNone (d !! "next") in
    match d !! "results" with
    | None => Continue env1 l1 endpoint1
    | Some results =>
        match Py.iter results with
        | inl e => Raise env1 l1 e
        | inr results =>
            match for_collection args env1 l1 results with
            | (env2, l2, Some e) => Raise env2 l2 e
            | (env2, l2, None) =>
                if max_reached args l2 then Break env2 l2 else Continue env2 l2 endpoint1
            end
        end
    end).
  { unfold while_body. simpl page. simpl successes. simpl failures. rewrite Hget.
    rewrite (truthy_dict d Hd). cbn [negb]. cbn [Py.contains Py.getitem].
    destruct (d !! "next") as [next|]; destruct (d !! "results") as [results|];
      reflexivity. }
  split; [|split].
  - apply get_seeds_effect in Hget as [_ Htsv]. exact Htsv.
  - intros Hresults. rewrite (while_endpoint_turn _ _ _ _ _ _ Hep), Hbody, Hresults.
    reflexivity.
  - intros Hnext. rewrite !(while_endpoint_turn _ _ _ _ _ _ Hep), Hbody, Hnext.
    cbn zeta. cbn [default].
    destruct (d !! "results") as [results|];
      [|rewrite !while_endpoint_None; split; [reflexivity|discriminate]].
    destruct (Py.iter results) as [e|results']; [split; [reflexivity|discriminate]|].
    destruct (for_collection args env1 _ results') as [[env2 l2] [e|]];
      [split; [reflexivity|discriminate]|].
    destruct (max_reached args l2); rewrite ?while_endpoint_None;
      split; (reflexivity || discriminate).
Qed.

End MainLoop.

(** ** The program on the scripted worlds *)

(** C1: the count of failed page requests is not reset by a page that
    arrives.  The first page of "us-east-2" fails three times and then
    arrives; its successor, the second page, fails once, and that single
    failure, the fourth of the run, makes the program give the cluster up
    ("Failure after three retries" for the second page) and go on to
    "eu-central-1": the second page is requested once. *)
Theorem retries_not_reset :
  exists env l,
    main 10 {| args_endpoint := Script.base; args_n := 0 |} Script.flaky_api = Some (env, l) /\
    rev (calls env) =
      [Script.first_page "us-east-2"; Script.first_page "us-east-2";
       Script.first_page "us-east-2"; Script.first_page "us-east-2";
       Script.next_page Script.page2;
       Script.first_page "eu-central-1"; Script.first_page "ap-northeast-1"] /\
    stdout env !! 4%nat = Some (FailureAfterThreeRetries (PStr Script.page2)).
Proof.
  eexists _, _. split; [vm_compute; reflexivity|]. split; vm_compute; reflexivity.
Qed.

(** The scenario of the specification: the first page of "us-east-2" fails
    four times in a row, from a count of zero.  The cluster is given up
    after the fourth request, the run goes on with "eu-central-1" and ends
    without an exception (the first line printed after the loops is the
    summary). *)
Example four_failures_in_a_row :
  exists env l,
    main 10 {| args_endpoint := Script.base; args_n := 0 |} Script.down_api = Some (env, l) /\
    rev (calls env) =
      [Script.first_page "us-east-2"; Script.first_page "us-east-2";
       Script.first_page "us-east-2"; Script.first_page "us-east-2";
       Script.first_page "eu-central-1"; Script.first_page "ap-northeast-1"] /\
    stdout env !! 4%nat = Some (FailureAfterThreeRetries (PStr Script.base)) /\
    stdout env !! 1%nat = Some (Summary 0 0 0).
Proof.
  eexists _, _. split; [vm_compute; reflexivity|]. repeat split; vm_compute; reflexivity.
Qed.

(** C3, the claim as stated fails: the probe answers 200 and reading the
    robots file raises; the URL is not declared a success, it is a failure
    with code 200 and the exception as message. *)
Lemma robots_failure_is_a_failure :
  rp_read Script.unreadable "https://example.org/robots.txt" =
    (Script.unreadable, inl Script.url_error) /\
  snd (check_url (Script.start Script.unreadable) Script.target) =
    (false, 200, MsgExn Script.url_error).
Proof. split; vm_compute; reflexivity. Qed.

(** C10, the claim as stated fails: the first page arrives as the empty
    object, which has no key 'next'; the loop does not end, the page is
    requested again and the seed of the second answer is checked. *)
Lemma empty_page_is_retried :
  (exists env1,
      get_seeds (print (Checking "us-east-2" 1 0 0) (Script.start Script.empty_api))
        (PStr Script.base) "us-east-2" = (env1, inr (PDict ∅))) /\
  (exists env l,
      while_endpoint 3 {| args_endpoint := Script.base; args_n := 0 |} "us-east-2"
        (Script.start Script.empty_api) Script.zero (PStr Script.base) = Done env l /\
      fetches (calls env) = 2 /\ count l = 1).
Proof.
  split.
  - eexists. vm_compute. reflexivity.
  - eexists _, _. split; [vm_compute; reflexivity|]. split; vm_compute; reflexivity.
Qed.

(** *** The theorems at concrete inputs *)

Lemma check_url_transport_failure_witness :
  requests_head (net (Script.start Script.slow)) Script.target 30 false =
    (Script.slow, inl Script.timed_out) /\
  exists m,
    check_url (Script.start Script.slow) Script.target =
      (called (CallHead Script.target) Script.slow (Script.start Script.slow),
       (false, 0, m)) /\
    m = MsgStr "Timeout after 30s".
Proof.
  split; [reflexivity|].
  destruct (check_url_transport_failure (world := Script.world)
              (Script.start Script.slow) Script.target
              Script.slow Script.timed_out eq_refl) as (m & Hcheck & Htimeout & _).
  exists m. split; [exact Hcheck|]. apply Htimeout. reflexivity.
Defined.

Lemma robots_file_consulted_witness :
  requests_head (net (Script.start Script.unreadable)) Script.target 30 false =
    (Script.unreadable, Script.status 200) /\
  urlparse Script.target = inr {| scheme := "https"; netloc := "example.org" |} /\
  calls (fst (check_url (Script.start Script.unreadable) Script.target)) =
    [CallRobots "https://example.org/robots.txt"; CallHead Script.target] /\
  snd (check_url (Script.start Script.unreadable) Script.target) =
    (false, 200, except_clauses Script.url_error).
Proof.
  split; [reflexivity|]. split; [reflexivity|].
  destruct (robots_file_consulted (world := Script.world)
              (Script.start Script.unreadable) Script.target
              Script.unreadable {| status_code := 200; headers := Headers ∅ |}
              {| scheme := "https"; netloc := "example.org" |}
              eq_refl eq_refl eq_refl) as (Hcalls & Hraise & _).
  split; [exact Hcalls|].
  exact (Hraise Script.unreadable Script.url_error eq_refl).
Defined.

Lemma classification_total_witness :
  requests_head (net (Script.start Script.teapot)) Script.target 30 false =
    (Script.teapot, Script.status 418) /\
  exists b,
    Spec.in_bracket b 418 = true /\
    (forall b', Spec.in_bracket b' 418 = true -> b' = b) /\
    match Spec.message b (Headers ∅) with
    | Some s => snd (check_url (Script.start Script.teapot) Script.target) = (false, 418, MsgStr s)
    | None =>
        418 = 200 /\
        (snd (check_url (Script.start Script.teapot) Script.target) =
           (true, 200, MsgStr "Accepted") \/
         snd (check_url (Script.start Script.teapot) Script.target) =
           (false, 200, MsgStr "Robot exclusion") \/
         exists e,
           snd (check_url (Script.start Script.teapot) Script.target) =
             (false, 200, except_clauses e))
    end.
Proof.
  split; [reflexivity|].
  exact (classification_total (world := Script.world)
           (Script.start Script.teapot) Script.target Script.teapot
           {| status_code := 418; headers := Headers ∅ |} eq_refl).
Defined.

Lemma robot_exclusion_witness :
  requests_head (net (Script.start Script.excluding)) Script.target 30 false =
    (Script.excluding, Script.status 200) /\
  rp_read Script.excluding "https://example.org/robots.txt" = (Script.excluding, inr false) /\
  rp_can_fetch false "CoherenceBot" Script.target = inr false /\
  snd (check_url (Script.start Script.excluding) Script.target) =
    (false, 200, MsgStr "Robot exclusion").
Proof.
  split; [reflexivity|]. split; [reflexivity|]. split; [reflexivity|].
  exact (robot_exclusion (world := Script.world)
           (Script.start Script.excluding) Script.target
           Script.excluding Script.excluding
           {| status_code := 200; headers := Headers ∅ |}
           {| scheme := "https"; netloc := "example.org" |} false
           eq_refl eq_refl eq_refl eq_refl eq_refl eq_refl).
Defined.

Lemma redirect_message_witness :
  requests_head (net (Script.start Script.redirecting)) Script.target 30 false =
    (Script.redirecting, inr Script.moved) /\
  300 <= status_code Script.moved <= 399 /\
  snd (check_url (Script.start Script.redirecting) Script.target) =
    (false, 301, MsgStr "https://example.com/x").
Proof.
  split; [reflexivity|]. split; [simpl; lia|].
  refine (proj1 (redirect_message (world := Script.world)
                   (Script.start Script.redirecting) Script.target
                   Script.redirecting Script.moved eq_refl _) "https://example.com/x" _).
  - simpl; lia.
  - reflexivity.
Defined.

Lemma page_without_results_witness :
  get_seeds (print (Checking "us-east-2" 1 0 0) (Script.start Script.bare_api))
    (PStr Script.base) "us-east-2" =
    (called (CallGet (PStr Script.base)
               (Some [("sourcing", "coherencebot"); ("cluster", "us-east-2")]))
       (Script.server [] (Script.status 404) (inr true))
       (print (Checking "us-east-2" 1 0 0) (Script.start Script.bare_api)),
     inr (PDict {["next" := PStr Script.page2]})) /\
  while_endpoint 2 {| args_endpoint := Script.base; args_n := 0 |} "us-east-2"
    (Script.start Script.bare_api) Script.zero (PStr Script.base) =
    while_endpoint 1 {| args_endpoint := Script.base; args_n := 0 |} "us-east-2"
      (called (CallGet (PStr Script.base)
                 (Some [("sourcing", "coherencebot"); ("cluster", "us-east-2")]))
         (Script.server [] (Script.status 404) (inr true))
         (print (Checking "us-east-2" 1 0 0) (Script.start Script.bare_api)))
      {| page := 1; count := 0; successes := 0; failures := 0; retries := 0 |}
      (PStr Script.page2).
Proof.
  split; [reflexivity|].
  refine (proj1 (proj2 (page_without_results (world := Script.world) 1
                          {| args_endpoint := Script.base; args_n := 0 |} "us-east-2"
                          (Script.start Script.bare_api) _ Script.zero (PStr Script.base)
                          {["next" := PStr Script.page2]} eq_refl _)) _).
  - apply map_non_empty_singleton.
  - reflexivity.
Defined.

(** * More properties of the program *)

Section GetSeeds.

Context {Net RP : Type} {world : Collaborators Net RP}.

(** What [get_seeds] does with an endpoint that is a string. *)
Lemma get_seeds_str (env : Env Net) (s cluster : string) :
  get_seeds env (PStr s) cluster =
    let '(n1, r) := requests_get (net env) (PStr s) api_headers (query s cluster) in
    let env := called (CallGet (PStr s) (query s cluster)) n1 env in
    match r with
    | inl e => (print (RequestFailed e) env, inr PNone)
    | inr response =>
        if api_status_code response =? 200 then
          match api_json response with
          | inl e => (print (RequestFailed e) env, inr PNone)
          | inr response_obj => (env, inr response_obj)
          end
        else
          (print (RequestFailed (Exn NameError "name 'endpoint' is not defined")) env,
           inr PNone)
    end.
Proof.
  unfold get_seeds, query. cbn [Py.contains].
  destruct (Py.substring "?" s); reflexivity.
Qed.

(** X1: for an endpoint that is a string, [get_seeds] does not raise and
    makes one request.  It returns something else than None only when the
    request was answered with status 200 and a body that is JSON, and then
    it is that body and nothing is printed. *)
Theorem get_seeds_returns (env : Env Net) (s cluster : string) :
  exists env' v,
    get_seeds env (PStr s) cluster = (env', inr v) /\
    fetches (calls env') = fetches (calls env) + 1 /\
    probes (calls env') = probes (calls env) /\
    tsv_file env' = tsv_file env /\
    (v <> PNone ->
     stdout env' = stdout env /\
     exists response,
       snd (requests_get (net env) (PStr s) api_headers (query s cluster)) = inr response /\
       api_status_code response = 200 /\
       api_json response = inr v).
Proof.
  rewrite get_seeds_str.
  destruct (requests_get (net env) (PStr s) api_headers (query s cluster))
    as [n1 [e|response]]; cbn [snd].
  - eexists _, _. split; [reflexivity|]. simpl.
    split; [lia|]. split; [reflexivity|]. split; [reflexivity|]. congruence.
  - destruct (Z.eqb_spec (api_status_code response) 200) as [Hcode|Hcode].
    + destruct (api_json response) as [e|obj] eqn:Hjson.
      * eexists _, _. split; [reflexivity|]. simpl.
        split; [lia|]. split; [reflexivity|]. split; [reflexivity|]. congruence.
      * eexists _, _. split; [reflexivity|]. simpl.
        split; [lia|]. split; [reflexivity|]. split; [reflexivity|].
        intros _. split; [reflexivity|]. exists response. auto.
    + eexists _, _. split; [reflexivity|]. simpl.
      split; [lia|]. split; [reflexivity|]. split; [reflexivity|]. congruence.
Qed.

(** X2: the parameters 'sourcing' and 'cluster' are sent exactly when the
    endpoint has no "?" in it.  With an endpoint that has one, the cluster
    is not used at all: the call does the same for every cluster. *)
Theorem get_seeds_query (env : Env Net) (s cluster : string) :
  (Py.substring "?" s = false ->
   calls (fst (get_seeds env (PStr s) cluster)) =
     CallGet (PStr s) (Some [("sourcing", "coherencebot"); ("cluster", cluster)])
       :: calls env) /\
  (Py.substring "?" s = true ->
   calls (fst (get_seeds env (PStr s) cluster)) = CallGet (PStr s) None :: calls env /\
   forall cluster', get_seeds env (PStr s) cluster' = get_seeds env (PStr s) cluster).
Proof.
  assert (Hcalls : calls (fst (get_seeds env (PStr s) cluster)) =
                     CallGet (PStr s) (query s cluster) :: calls env).
  { rewrite get_seeds_str.
    destruct (requests_get (net env) (PStr s) api_headers (query s cluster))
      as [n1 [e|response]]; [reflexivity|].
    destruct (api_status_code response =? 200); [|reflexivity].
    destruct (api_json response); reflexivity. }
  split; intros Hq.
  - rewrite Hcalls. unfold query. rewrite Hq. reflexivity.
  - split.
    + rewrite Hcalls. unfold query. rewrite Hq. reflexivity.
    + intros cluster'. rewrite !get_seeds_str. unfold query. rewrite Hq. reflexivity.
Qed.

(** X3: when the API answers with a status other than 200, [get_seeds]
    returns None, and the line it prints is not the one of line 127: that
    line formats [endpoint], a name that is not bound in [get_seeds], and
    the handler of line 129 prints the NameError instead. *)
Theorem get_seeds_not_accepted (env : Env Net) (s cluster : string) (n1 : Net)
    (response : ApiResponse) :
  requests_get (net env) (PStr s) api_headers (query s cluster) = (n1, inr response) ->
  api_status_code response <> 200 ->
  exists env',
    get_seeds env (PStr s) cluster = (env', inr PNone) /\
    stdout env' =
      RequestFailed (Exn NameError "name 'endpoint' is not defined") :: stdout env.
Proof.
  intros Hget Hcode. rewrite get_seeds_str, Hget.
  apply Z.eqb_neq in Hcode. rewrite Hcode.
  eexists. split; reflexivity.
Qed.

(** X4: a page answered with status 200 whose JSON body is false in a
    Python test (null, false, 0, the empty string, array or object) is
    taken for a request without response: it counts one retry and the same
    endpoint is requested again, or the cluster is given up when that was
    one retry too many. *)
Theorem empty_body_is_no_response (args : Args) (cluster : string) (env : Env Net)
    (l : Locals) (s : string) (n1 : Net) (response : ApiResponse) (v : pyval) :
  requests_get (net env) (PStr s) api_headers (query s cluster) = (n1, inr response) ->
  api_status_code response = 200 ->
  api_json response = inr v ->
  Py.truthy v = false ->
  let env1 :=
    print (NoResponse (PStr s))
      (called (CallGet (PStr s) (query s cluster)) n1
         (print (Checking cluster (page l + 1) (successes l) (failures l)) env)) in
  while_body args cluster env l (PStr s) =
    if retries l + 1 >? 3 then
      Break (print (FailureAfterThreeRetries (PStr s)) env1)
        {| page := page l + 1; count := count l; successes := successes l;
           failures := failures l; retries := 0 |}
    else
      Continue env1
        {| page := page l + 1; count := count l; successes := successes l;
           failures := failures l; retries := retries l + 1 |}
        (PStr s).
Proof.
  intros Hget Hcode Hjson Hfalse env1. subst env1.
  apply (while_body_no_response args cluster env _ l (PStr s) v); [|exact Hfalse].
  rewrite get_seeds_str. cbn [net print]. rewrite Hget, Hcode, Hjson. reflexivity.
Qed.

End GetSeeds.

Lemma get_seeds_not_accepted_witness :
  requests_get (net (Script.start Script.unavailable_api)) (PStr Script.base) api_headers
    (query Script.base "us-east-2") =
    (Script.server [] (Script.status 404) (inr true),
     inr {| api_status_code := 503; api_json := inr PNone |}) /\
  503 <> 200 /\
  exists env',
    get_seeds (Script.start Script.unavailable_api) (PStr Script.base) "us-east-2" =
      (env', inr PNone) /\
    stdout env' = [RequestFailed (Exn NameError "name 'endpoint' is not defined")].
Proof.
  split; [reflexivity|]. split; [lia|].
  exact (get_seeds_not_accepted (world := Script.world)
           (Script.start Script.unavailable_api) Script.base "us-east-2"
           (Script.server [] (Script.status 404) (inr true))
           {| api_status_code := 503; api_json := inr PNone |} eq_refl ltac:(simpl; lia)).
Defined.

Lemma empty_body_is_no_response_witness :
  requests_get (net (Script.start Script.empty_api)) (PStr Script.base) api_headers
    (query Script.base "us-east-2") =
    (Script.server (tail Script.empty_first) (Script.status 404) (inr true),
     Script.ok (PDict ∅)) /\
  Py.truthy (PDict ∅) = false /\
  while_body {| args_endpoint := Script.base; args_n := 0 |} "us-east-2"
    (Script.start Script.empty_api) Script.zero (PStr Script.base) =
    Continue
      (print (NoResponse (PStr Script.base))
         (called (CallGet (PStr Script.base) (query Script.base "us-east-2"))
            (Script.server (tail Script.empty_first) (Script.status 404) (inr true))
            (print (Checking "us-east-2" 1 0 0) (Script.start Script.empty_api))))
      {| page := 1; count := 0; successes := 0; failures := 0; retries := 1 |}
      (PStr Script.base).
Proof.
  split; [reflexivity|]. split; [reflexivity|].
  exact (empty_body_is_no_response (world := Script.world)
           {| args_endpoint := Script.base; args_n := 0 |} "us-east-2"
           (Script.start Script.empty_api) Script.zero Script.base
           (Script.server (tail Script.empty_first) (Script.status 404) (inr true))
           {| api_status_code := 200; api_json := inr (PDict ∅) |} (PDict ∅)
           eq_refl eq_refl eq_refl eq_refl).
Defined.

Section CheckUrlMore.

Context {Net RP : Type} {world : Collaborators Net RP}.

(** [check_url] prints nothing, writes nothing to the report and requests
    no page. *)
Lemma check_url_quiet (env : Env Net) (url : pyval) :
  stdout (fst (check_url env url)) = stdout env /\
  tsv_file (fst (check_url env url)) = tsv_file env /\
  fetches (calls (fst (check_url env url))) = fetches (calls env).
Proof.
  destruct (requests_head (net env) url 30 false) as [n1 [e|response]] eqn:Hhead.
  { unfold check_url. rewrite Hhead. simpl. auto. }
  destruct (Z.eq_dec (status_code response) 200) as [Hcode|Hcode].
  - rewrite (check_url_200 _ _ _ _ Hhead Hcode). cbn zeta.
    destruct (urlparse url) as [e|parsed_uri]; [simpl; auto|].
    destruct (rp_read n1 (robots_txt parsed_uri)) as [n2 [e|rp]]; [simpl; auto|].
    destruct (rp_crawl_delay rp "*") as [e|]; [simpl; auto|].
    destruct (rp_can_fetch rp "CoherenceBot" url) as [e|[|]]; simpl; auto.
  - destruct (check_url_bracket _ _ _ _ Hhead Hcode) as (b & s & _ & _ & ->).
    simpl. auto.
Qed.

(** X5: [check_url] makes one probe and at most one request for a robots
    file, and nothing else: it prints nothing and writes nothing to the
    report.  The robots file is requested only after a probe answered 200:
    when the probe raised, or answered another code, the probe is the only
    call made. *)
Theorem check_url_requests (env : Env Net) (url : pyval) :
  stdout (fst (check_url env url)) = stdout env /\
  tsv_file (fst (check_url env url)) = tsv_file env /\
  (calls (fst (check_url env url)) = CallHead url :: calls env \/
   exists robots_url,
     calls (fst (check_url env url)) = CallRobots robots_url :: CallHead url :: calls env) /\
  ((forall response,
       snd (requests_head (net env) url 30 false) = inr response ->
       status_code response <> 200) ->
   calls (fst (check_url env url)) = CallHead url :: calls env).
Proof.
  pose proof (check_url_quiet env url) as (Hout & Htsv & _).
  split; [exact Hout|]. split; [exact Htsv|].
  destruct (requests_head (net env) url 30 false) as [n1 [e|response]] eqn:Hhead.
  { unfold check_url. rewrite Hhead. simpl. auto. }
  destruct (Z.eq_dec (status_code response) 200) as [Hcode|Hcode].
  - split.
    + rewrite (check_url_200 _ _ _ _ Hhead Hcode). cbn zeta.
      destruct (urlparse url) as [e|parsed_uri]; [simpl; auto|].
      destruct (rp_read n1 (robots_txt parsed_uri)) as [n2 [e|rp]]; [simpl; eauto|].
      destruct (rp_crawl_delay rp "*") as [e|]; [simpl; eauto|].
      destruct (rp_can_fetch rp "CoherenceBot" url) as [e|[|]]; simpl; eauto.
    + intros Hnot. exfalso. exact (Hnot response eq_refl Hcode).
  - destruct (check_url_bracket _ _ _ _ Hhead Hcode) as (b & s & _ & _ & ->).
    simpl. auto.
Qed.

(** The outcome of [check_url] depends on the state of the world only. *)
Lemma check_url_net (env env' : Env Net) (url : pyval) :
  net env = net env' ->
  snd (check_url env url) = snd (check_url env' url) /\
  net (fst (check_url env url)) = net (fst (check_url env' url)).
Proof.
  intros Hnet.
  destruct (requests_head (net env) url 30 false) as [n1 [e|response]] eqn:Hhead;
    pose proof Hhead as Hhead'; rewrite Hnet in Hhead'.
  { unfold check_url. rewrite Hhead, Hhead'. simpl. auto. }
  destruct (Z.eq_dec (status_code response) 200) as [Hcode|Hcode].
  - rewrite (check_url_200 _ _ _ _ Hhead Hcode), (check_url_200 _ _ _ _ Hhead' Hcode).
    cbn zeta.
    destruct (urlparse url) as [e|parsed_uri]; [simpl; auto|].
    destruct (rp_read n1 (robots_txt parsed_uri)) as [n2 [e|rp]]; [simpl; auto|].
    destruct (rp_crawl_delay rp "*") as [e|]; [simpl; auto|].
    destruct (rp_can_fetch rp "CoherenceBot" url) as [e|[|]]; simpl; auto.
  - destruct (check_url_bracket _ _ _ _ Hhead Hcode) as (b & s & Hb & Hs & ->).
    destruct (check_url_bracket _ _ _ _ Hhead' Hcode) as (b' & s' & Hb' & Hs' & ->).
    assert (b = b') as <- by exact (in_bracket_unique _ _ _ Hb Hb').
    simpl. split; [congruence|reflexivity].
Qed.

(** X6: [check_url] keeps nothing between two calls.  With a server that
    the requests leave as it is, checking a URL a second time gives the
    same success flag, code and message as the first time, and the robots
    file is read again: the second check makes as many calls as the
    first. *)
Theorem check_url_twice (env : Env Net) (url : pyval) :
  (forall n u, fst (requests_head n u 30 false) = n) ->
  (forall n robots_url, fst (rp_read n robots_url) = n) ->
  snd (check_url (fst (check_url env url)) url) = snd (check_url env url) /\
  exists made,
    calls (fst (check_url env url)) = (made ++ calls env)%list /\
    calls (fst (check_url (fst (check_url env url)) url)) = (made ++ made ++ calls env)%list.
Proof.
  intros Hhead_stable Hread_stable.
  assert (Hnet : forall env0 : Env Net, net (fst (check_url env0 url)) = net env0).
  { intros env0.
    pose proof (Hhead_stable (net env0) url) as Hn1.
    destruct (requests_head (net env0) url 30 false) as [n1 [e|response]] eqn:Hhead;
      simpl in Hn1; subst n1.
    { unfold check_url. rewrite Hhead. reflexivity. }
    destruct (Z.eq_dec (status_code response) 200) as [Hcode|Hcode].
    - rewrite (check_url_200 _ _ _ _ Hhead Hcode). cbn zeta.
      destruct (urlparse url) as [e|parsed_uri]; [reflexivity|].
      pose proof (Hread_stable (net env0) (robots_txt parsed_uri)) as Hn2.
      destruct (rp_read (net env0) (robots_txt parsed_uri)) as [n2 [e|rp]];
        simpl in Hn2; subst n2; [reflexivity|].
      destruct (rp_crawl_delay rp "*") as [e|]; [reflexivity|].
      destruct (rp_can_fetch rp "CoherenceBot" url) as [e|[|]]; reflexivity.
    - destruct (check_url_bracket _ _ _ _ Hhead Hcode) as (b & s & _ & _ & ->).
      reflexivity. }
  assert (Hmade : exists made, forall env0 : Env Net,
             net env0 = net env ->
             calls (fst (check_url env0 url)) = (made ++ calls env0)%list).
  { destruct (requests_head (net env) url 30 false) as [n1 [e|response]] eqn:Hhead.
    { exists [CallHead url]. intros env0 Hnet0. rewrite <- Hnet0 in Hhead.
      unfold check_url. rewrite Hhead. reflexivity. }
    destruct (Z.eq_dec (status_code response) 200) as [Hcode|Hcode].
    - destruct (urlparse url) as [e|parsed_uri] eqn:Hparse.
      { exists [CallHead url]. intros env0 Hnet0. rewrite <- Hnet0 in Hhead.
        rewrite (check_url_200 _ _ _ _ Hhead Hcode), Hparse. reflexivity. }
      exists [CallRobots (robots_txt parsed_uri); CallHead url].
      intros env0 Hnet0. rewrite <- Hnet0 in Hhead.
      rewrite (check_url_200 _ _ _ _ Hhead Hcode), Hparse. cbn zeta.
      destruct (rp_read n1 (robots_txt parsed_uri)) as [n2 [e|rp]]; [reflexivity|].
      destruct (rp_crawl_delay rp "*") as [e|]; [reflexivity|].
      destruct (rp_can_fetch rp "CoherenceBot" url) as [e|[|]]; reflexivity.
    - exists [CallHead url]. intros env0 Hnet0. rewrite <- Hnet0 in Hhead.
      destruct (check_url_bracket _ _ _ _ Hhead Hcode) as (b & s & _ & _ & ->).
      reflexivity. }
  split.
  - apply check_url_net. apply Hnet.
  - destruct Hmade as [made Hmade]. exists made.
    split; [apply Hmade; reflexivity|].
    rewrite (Hmade (fst (check_url env url)) (Hnet env)), (Hmade env eq_refl).
    reflexivity.
Qed.

End CheckUrlMore.

Lemma check_url_twice_witness :
  (forall n u, fst (requests_head (Collaborators := Script.world) n u 30 false) = n) /\
  (forall n robots_url, fst (rp_read (Collaborators := Script.world) n robots_url) = n) /\
  snd (check_url (fst (check_url (Script.start Script.excluding) Script.target))
         Script.target) =
    snd (check_url (Script.start Script.excluding) Script.target) /\
  exists made,
    calls (fst (check_url (Script.start Script.excluding) Script.target)) =
      (made ++ calls (Script.start Script.excluding))%list /\
    calls (fst (check_url (fst (check_url (Script.start Script.excluding) Script.target))
                  Script.target)) =
      (made ++ made ++ calls (Script.start Script.excluding))%list.
Proof.
  split; [reflexivity|]. split; [reflexivity|].
  exact (check_url_twice (world := Script.world) (Script.start Script.excluding)
           Script.target (fun _ _ => eq_refl) (fun _ _ => eq_refl)).
Defined.

(** ** Invariants of the run *)

Lemma is_None_or_not (v : pyval) : v = PNone \/ v <> PNone.
Proof. destruct v; [left; reflexivity|right; discriminate..]. Qed.

Section RunInvariant.

Context {Net RP : Type} {world : Collaborators Net RP}.

(** A property [P] of the state that every step of the run keeps, with a
    weaker [Q] for the states in which an exception is raised, holds when
    the run ends. *)
Variables P Q : Env Net -> Locals -> Prop.

Hypothesis P_Q : forall env l, P env l -> Q env l.

Hypothesis P_seed :
  forall env l collection,
    P env l ->
    match check_seed env l collection with
    | (env', l', None) => P env' l'
    | (env', l', Some _) => Q env' l'
    end.

Hypothesis P_get :
  forall env l cluster endpoint,
    P env l ->
    match
      get_seeds (print (Checking cluster (page l + 1) (successes l) (failures l)) env)
        endpoint cluster
    with
    | (env', r) =>
        let l' := {| page := page l + 1; count := count l; successes := successes l;
                     failures := failures l; retries := retries l |} in
        match r with inr _ => P env' l' | inl _ => Q env' l' end
    end.

Hypothesis P_retry :
  forall env l endpoint,
    P env l -> retries l + 1 <= 3 ->
    P (print (NoResponse endpoint) env)
      {| page := page l; count := count l; successes := successes l;
         failures := failures l; retries := retries l + 1 |}.

Hypothesis P_give_up :
  forall env l endpoint,
    P env l ->
    P (print (FailureAfterThreeRetries endpoint) (print (NoResponse endpoint) env))
      {| page := page l; count := count l; successes := successes l;
         failures := failures l; retries := 0 |}.

Hypothesis P_max : forall env l n, P env l -> P (print (MaxRequestsReached n) env) l.

Lemma for_collection_invariant (args : Args) (results : list pyval) :
  forall env l,
    P env l ->
    match for_collection args env l results with
    | (env', l', None) => P env' l'
    | (env', l', Some _) => Q env' l'
    end.
Proof.
  induction results as [|collection rest IH]; intros env l HP; simpl; [exact HP|].
  pose proof (P_seed env l collection HP) as Hseed.
  destruct (check_seed env l collection) as [[env1 l1] [e|]]; [exact Hseed|].
  destruct (max_reached args l1); [exact Hseed|].
  apply IH. exact Hseed.
Qed.

Lemma while_body_invariant (args : Args) (cluster : string) (env : Env Net) (l : Locals)
    (endpoint : pyval) :
  P env l ->
  match while_body args cluster env l endpoint with
  | Continue env' l' _ | Break env' l' => P env' l'
  | Raise env' l' _ => Q env' l'
  end.
Proof.
  intros HP. unfold while_body. simpl page. simpl successes. simpl failures.
  pose proof (P_get env l cluster endpoint HP) as Hget.
  destruct (get_seeds _ endpoint cluster) as [env1 [e|api_response]]; cbn zeta in Hget;
    [exact Hget|].
  pose proof (P_Q _ _ Hget) as HQ.
  destruct (negb (Py.truthy api_response)).
  { cbn [retries]. rewrite Z.gtb_ltb.
    destruct (Z.ltb_spec 3 (retries l + 1)).
    - apply (P_give_up _ _ endpoint Hget).
    - apply (P_retry _ _ endpoint Hget). simpl. lia. }
  destruct (Py.contains api_response "next") as [e|has_next]; [exact HQ|].
  destruct (if has_next then Py.getitem api_response "next" else inr PNone)
    as [e|endpoint']; [exact HQ|].
  destruct (Py.contains api_response "results") as [e|[|]]; [exact HQ| |exact Hget].
  destruct (Py.getitem api_response "results") as [e|results]; [exact HQ|].
  destruct (Py.iter results) as [e|results']; [exact HQ|].
  pose proof (for_collection_invariant args results' _ _ Hget) as Hfor.
  destruct (for_collection args env1 _ results') as [[env2 l2] [e|]]; [exact Hfor|].
  destruct (max_reached args l2); exact Hfor.
Qed.

Lemma while_endpoint_invariant (args : Args) (cluster : string) (fuel : nat) :
  forall env l endpoint,
    P env l ->
    match while_endpoint fuel args cluster env l endpoint with
    | Done env' l' => P env' l'
    | Raised env' l' _ => Q env' l'
    | OutOfFuel => True
    end.
Proof.
  induction fuel as [|fuel IH]; intros env l endpoint HP.
  - destruct endpoint; simpl; auto.
  - destruct (is_None_or_not endpoint) as [->|Hep]; [exact HP|].
    rewrite (while_endpoint_turn _ _ _ _ _ _ Hep).
    pose proof (while_body_invariant args cluster env l endpoint HP) as Hbody.
    destruct (while_body args cluster env l endpoint) as [env1 l1 ep|env1 l1|env1 l1 e];
      [apply IH; exact Hbody|exact Hbody|exact Hbody].
Qed.

Lemma for_cluster_invariant (args : Args) (fuel : nat) (cs : list string) :
  forall env l,
    P env l ->
    match for_cluster fuel args env l cs with
    | Done env' l' => P env' l'
    | Raised env' l' _ => Q env' l'
    | OutOfFuel => True
    end.
Proof.
  induction cs as [|cluster rest IH]; intros env l HP; simpl; [exact HP|].
  pose proof (while_endpoint_invariant args cluster fuel env l (PStr (args_endpoint args)) HP)
    as Hwhile.
  destruct (while_endpoint fuel args cluster env l (PStr (args_endpoint args)))
    as [env1 l1|env1 l1 e|]; [|exact Hwhile|exact I].
  destruct (max_reached args l1); [apply P_max; exact Hwhile|].
  apply IH. exact Hwhile.
Qed.

End RunInvariant.

Section Reports.

Context {Net RP : Type} {world : Collaborators Net RP}.

Lemma get_seeds_lines (env : Env Net) (endpoint : pyval) (cluster : string) :
  succeeded (stdout (fst (get_seeds env endpoint cluster))) = succeeded (stdout env) /\
  failed (stdout (fst (get_seeds env endpoint cluster))) = failed (stdout env) /\
  tsv_file (fst (get_seeds env endpoint cluster)) = tsv_file env.
Proof.
  unfold get_seeds.
  destruct (Py.contains endpoint "?") as [e|has_params]; [auto|].
  destruct (requests_get _ _ _ _) as [n1 [e|response]]; [simpl; auto|].
  destruct (api_status_code response =? 200); [|simpl; auto].
  destruct (api_json response); simpl; auto.
Qed.

Lemma get_seeds_fetches (env : Env Net) (endpoint : pyval) (cluster : string) :
  match get_seeds env endpoint cluster with
  | (env', inl _) => env' = env
  | (env', inr _) => fetches (calls env') = fetches (calls env) + 1
  end.
Proof.
  unfold get_seeds.
  destruct (Py.contains endpoint "?") as [e|has_params]; [reflexivity|].
  destruct (requests_get _ _ _ _) as [n1 [e|response]]; [simpl; lia|].
  destruct (api_status_code response =? 200); [|simpl; lia].
  destruct (api_json response); simpl; lia.
Qed.

Lemma check_seed_reported (env : Env Net) (l : Locals) (collection : pyval) :
  reported env l ->
  reported (fst (fst (check_seed env l collection))) (snd (fst (check_seed env l collection))).
Proof.
  intros (Hrows & Hs & Hf). unfold check_seed.
  destruct (seed_fields collection) as [e|[[[url title] uuid] org_slug]];
    [unfold reported; simpl; auto|].
  pose proof (check_url_quiet env url) as (Hout & Htsv & _).
  destruct (check_url env url) as [env1 [[[|] code] m]]; simpl in Hout, Htsv;
    unfold reported; simpl; rewrite Hout, Htsv; repeat split; lia.
Qed.

Lemma check_seed_paged (env : Env Net) (l : Locals) (collection : pyval) :
  page (snd (fst (check_seed env l collection))) = page l /\
  retries (snd (fst (check_seed env l collection))) = retries l /\
  fetches (calls (fst (fst (check_seed env l collection)))) = fetches (calls env).
Proof.
  unfold check_seed.
  destruct (seed_fields collection) as [e|[[[url title] uuid] org_slug]]; [simpl; auto|].
  pose proof (check_url_quiet env url) as (_ & _ & Hfetches).
  destruct (check_url env url) as [env1 [[[|] code] m]]; simpl in *; auto.
Qed.

(** X7: when the loops of [main] end without an exception, the report
    has one row for each failure counted, and standard output one line
    "Verification succeeded" for each success counted and one line
    "Verification failed" for each failure counted. *)
Theorem report_matches_counters (fuel : nat) (args : Args) (n0 : Net) (env : Env Net)
    (l : Locals) :
  try_block fuel args n0 = Done env l ->
  Z.of_nat (List.length (tsv_file env)) = failures l /\
  succeeded (stdout env) = successes l /\
  failed (stdout env) = failures l.
Proof.
  intros Hdone.
  assert (Hrun : match try_block fuel args n0 with
                 | Done env l | Raised env l _ => reported env l
                 | OutOfFuel => True
                 end).
  { unfold try_block.
    apply (for_cluster_invariant reported reported).
    - auto.
    - intros env0 l0 collection Hr.
      pose proof (check_seed_reported env0 l0 collection Hr) as H.
      destruct (check_seed env0 l0 collection) as [[env1 l1] [e|]]; exact H.
    - intros env0 l0 cluster endpoint Hr.
      pose proof (get_seeds_lines
                    (print (Checking cluster (page l0 + 1) (successes l0) (failures l0)) env0)
                    endpoint cluster) as (Hs & Hf & Htsv).
      destruct (get_seeds _ endpoint cluster) as [env1 r]. simpl in Hs, Hf, Htsv.
      destruct Hr as (Hr1 & Hr2 & Hr3).
      assert (reported env1 {| page := page l0 + 1; count := count l0;
                               successes := successes l0; failures := failures l0;
                               retries := retries l0 |})
        by (unfold reported; simpl; rewrite Hs, Hf, Htsv; auto).
      destruct r; assumption.
    - intros env0 l0 endpoint Hr _. exact Hr.
    - intros env0 l0 endpoint Hr. exact Hr.
    - intros env0 l0 n Hr. exact Hr.
    - unfold reported. simpl. lia. }
  rewrite Hdone in Hrun. exact Hrun.
Qed.

(** X8: the page number of the progress lines counts the page requests of
    the whole run, retries included: when the loops end it is the number
    of requests made (one more at most when an exception ended the run).
    The count of retries is always within 0 and 3 between two turns. *)
Theorem page_counts_requests (fuel : nat) (args : Args) (n0 : Net) :
  match try_block fuel args n0 with
  | Done env l => page l = fetches (calls env) /\ 0 <= retries l <= 3
  | Raised env l _ =>
      fetches (calls env) <= page l <= fetches (calls env) + 1 /\ 0 <= retries l <= 3
  | OutOfFuel => True
  end.
Proof.
  unfold try_block.
  apply (for_cluster_invariant paged paged_upto).
  - unfold paged, paged_upto. intros env l [Hp Hr]. lia.
  - intros env l collection [Hp Hr].
    pose proof (check_seed_paged env l collection) as (Hpage & Hretries & Hfetches).
    destruct (check_seed env l collection) as [[env1 l1] [e|]]; simpl in *;
      unfold paged, paged_upto; lia.
  - intros env l cluster endpoint [Hp Hr].
    pose proof (get_seeds_fetches
                  (print (Checking cluster (page l + 1) (successes l) (failures l)) env)
                  endpoint cluster) as Hget.
    destruct (get_seeds _ endpoint cluster) as [env1 [e|v]]; cbn zeta.
    + subst env1. unfold paged_upto. simpl. lia.
    + simpl in Hget. unfold paged. simpl. lia.
  - intros env l endpoint [Hp Hr] Hle. unfold paged. simpl. lia.
  - intros env l endpoint [Hp Hr]. unfold paged. simpl. lia.
  - intros env l n Hp. exact Hp.
  - unfold paged. simpl. lia.
Qed.

End Reports.

Lemma report_matches_counters_witness :
  exists env l,
    try_block 4 {| args_endpoint := Script.base; args_n := 0 |} Script.three_api =
      Done env l /\
    failures l = 3 /\
    Z.of_nat (List.length (tsv_file env)) = failures l /\
    succeeded (stdout env) = successes l /\
    failed (stdout env) = failures l.
Proof.
  assert (Hrun : { env & { l | try_block 4 {| args_endpoint := Script.base; args_n := 0 |}
                                 Script.three_api = Done env l } }).
  { eexists. eexists. vm_compute. reflexivity. }
  destruct Hrun as (env & l & Hrun).
  exists env, l. split; [exact Hrun|].
  split; [revert Hrun; vm_compute; intros [= <- <-]; reflexivity|].
  exact (report_matches_counters (world := Script.world) 4
           {| args_endpoint := Script.base; args_n := 0 |} Script.three_api env l Hrun).
Defined.

Section Limits.

Context {Net RP : Type} {world : Collaborators Net RP}.

(** X9: with a limit N > 0, no run checks more than N URLs, whatever the
    collection and the servers do: when [main] returns, the count of
    processed URLs and the number of probes made are at most N. *)
Theorem never_more_than_limit (fuel : nat) (args : Args) (n0 : Net) :
  0 < args_n args ->
  match main fuel args n0 with
  | Some (env, l) => count l <= args_n args /\ probes (calls env) <= args_n args
  | None => True
  end.
Proof.
  intros Hn. unfold main.
  pose proof (try_block_tally fuel args n0) as Ht.
  assert (Hle : match try_block fuel args n0 with
                | Done _ l | Raised _ l _ => count l <= args_n args
                | OutOfFuel => True
                end).
  { unfold try_block.
    destruct (for_cluster_limit args fuel clusters Hn
                {| net := n0; calls := []; stdout := []; tsv_file := [] |}
                {| page := 0; count := 0; successes := 0; failures := 0; retries := 0 |} Hn)
      as [[_ Hr]|(env' & l' & -> & Hcount & _)]; [|lia].
    destruct (for_cluster fuel args _ _ clusters); [lia|exact Hr|exact I]. }
  destruct (try_block fuel args n0) as [env l|env l e|]; [| |exact I];
    unfold finish; destruct (count l >? 0); simpl;
    unfold tally, tally_upto in Ht; lia.
Qed.

Lemma max_reached_no_limit (args : Args) (l : Locals) :
  args_n args <= 0 -> max_reached args l = false.
Proof. intros Hn. unfold max_reached. zbool. lia. Qed.

Lemma for_collection_no_limit (args : Args) (results : list pyval) :
  args_n args <= 0 ->
  forall (env : Env Net) (l : Locals),
    for_collection args env l results = for_collection (unlimited args) env l results.
Proof.
  intros Hn. induction results as [|collection rest IH]; intros env l; simpl; [reflexivity|].
  destruct (check_seed env l collection) as [[env1 l1] [e|]]; [reflexivity|].
  rewrite (max_reached_no_limit args l1 Hn). apply IH.
Qed.

Lemma while_body_no_limit (args : Args) (cluster : string) (env : Env Net) (l : Locals)
    (endpoint : pyval) :
  args_n args <= 0 ->
  while_body args cluster env l endpoint = while_body (unlimited args) cluster env l endpoint.
Proof.
  intros Hn. unfold while_body.
  destruct (get_seeds _ endpoint cluster) as [env1 [e|api_response]]; [reflexivity|].
  destruct (negb (Py.truthy api_response)); [reflexivity|].
  destruct (Py.contains api_response "next") as [e|has_next]; [reflexivity|].
  destruct (if has_next then Py.getitem api_response "next" else inr PNone)
    as [e|endpoint']; [reflexivity|].
  destruct (Py.contains api_response "results") as [e|[|]]; [reflexivity| |reflexivity].
  destruct (Py.getitem api_response "results") as [e|results]; [reflexivity|].
  destruct (Py.iter results) as [e|results']; [reflexivity|].
  rewrite (for_collection_no_limit args results' Hn).
  destruct (for_collection (unlimited args) env1 _ results') as [[env2 l2] [e|]];
    [reflexivity|].
  rewrite (max_reached_no_limit args l2 Hn). reflexivity.
Qed.

Lemma while_endpoint_no_limit (args : Args) (cluster : string) (fuel : nat) :
  args_n args <= 0 ->
  forall (env : Env Net) (l : Locals) (endpoint : pyval),
    while_endpoint fuel args cluster env l endpoint =
      while_endpoint fuel (unlimited args) cluster env l endpoint.
Proof.
  intros Hn. induction fuel as [|fuel IH]; intros env l endpoint.
  - destruct endpoint; reflexivity.
  - destruct (is_None_or_not endpoint) as [->|Hep]; [reflexivity|].
    rewrite !(while_endpoint_turn _ _ _ _ _ _ Hep), (while_body_no_limit _ _ _ _ _ Hn).
    destruct (while_body (unlimited args) cluster env l endpoint); [apply IH|reflexivity..].
Qed.

Lemma for_cluster_no_limit (args : Args) (fuel : nat) (cs : list string) :
  args_n args <= 0 ->
  forall (env : Env Net) (l : Locals),
    for_cluster fuel args env l cs = for_cluster fuel (unlimited args) env l cs.
Proof.
  intros Hn. induction cs as [|cluster rest IH]; intros env l; simpl; [reflexivity|].
  rewrite (while_endpoint_no_limit args cluster fuel Hn).
  destruct (while_endpoint fuel (unlimited args) cluster env l (PStr (args_endpoint args)));
    [|reflexivity..].
  rewrite (max_reached_no_limit args _ Hn). apply IH.
Qed.

(** X10: a negative value of the option -n is no limit either: the run
    does exactly what the run with -n 0 does. *)
Theorem negative_limit_is_no_limit (fuel : nat) (args : Args) (n0 : Net) :
  args_n args <= 0 ->
  main fuel args n0 = main fuel (unlimited args) n0.
Proof.
  intros Hn. unfold main, try_block.
  rewrite (for_cluster_no_limit args fuel clusters Hn). reflexivity.
Qed.

End Limits.

Lemma never_more_than_limit_witness :
  0 < 10 /\
  exists env l,
    main 15 {| args_endpoint := Script.base; args_n := 10 |} Script.collection25 =
      Some (env, l) /\
    count l <= 10 /\ probes (calls env) <= 10.
Proof.
  split; [lia|].
  assert (Hrun : { r | main 15 {| args_endpoint := Script.base; args_n := 10 |}
                         Script.collection25 = Some r }).
  { eexists. vm_compute. reflexivity. }
  destruct Hrun as [[env l] Hrun].
  exists env, l. split; [exact Hrun|].
  pose proof (never_more_than_limit (world := Script.world) 15
                {| args_endpoint := Script.base; args_n := 10 |} Script.collection25
                ltac:(simpl; lia)) as H.
  rewrite Hrun in H. exact H.
Defined.

Lemma negative_limit_is_no_limit_witness :
  -5 <= 0 /\
  main 15 {| args_endpoint := Script.base; args_n := -5 |} Script.collection25 =
    main 15 {| args_endpoint := Script.base; args_n := 0 |} Script.collection25.
Proof.
  split; [lia|].
  exact (negative_limit_is_no_limit (world := Script.world) 15
           {| args_endpoint := Script.base; args_n := -5 |} Script.collection25
           ltac:(simpl; lia)).
Defined.

Section Outage.

Context {Net RP : Type} {world : Collaborators Net RP}.

(** The states of a world in which every request to the API raises. *)
Variable down : Net -> Prop.

Hypothesis down_raises :
  forall n url hs ps,
    down n -> exists n' e, requests_get n url hs ps = (n', inl e) /\ down n'.

Lemma while_body_down (args : Args) (cluster : string) (env : Env Net) (l : Locals)
    (s : string) :
  down (net env) ->
  exists env' l',
    down (net env') /\ only_requests 1 env l env' l' /\
    ((retries l + 1 <= 3 /\
      while_body args cluster env l (PStr s) = Continue env' l' (PStr s) /\
      retries l' = retries l + 1) \/
     (3 < retries l + 1 /\
      while_body args cluster env l (PStr s) = Break env' l' /\
      retries l' = 0)).
Proof.
  intros Hdown. unfold while_body. rewrite get_seeds_str. cbn [net print].
  destruct (down_raises (net env) (PStr s) api_headers (query s cluster) Hdown)
    as (n1 & e & -> & Hdown1).
  cbn [Py.truthy negb retries]. rewrite Z.gtb_ltb.
  destruct (Z.ltb_spec 3 (retries l + 1)).
  - eexists _, _. split; [|split; [|right; split; [assumption|split; reflexivity]]].
    + exact Hdown1.
    + unfold only_requests. simpl. repeat split; lia.
  - eexists _, _. split; [|split; [|left; split; [assumption|split; reflexivity]]].
    + exact Hdown1.
    + unfold only_requests. simpl. repeat split; lia.
Qed.

Lemma only_requests_trans (j k : Z) (env1 env2 env3 : Env Net) (l1 l2 l3 : Locals) :
  only_requests j env1 l1 env2 l2 ->
  only_requests k env2 l2 env3 l3 ->
  only_requests (j + k) env1 l1 env3 l3.
Proof. unfold only_requests. intros (? & ? & ? & ? & ? & ? & ?) (? & ? & ? & ? & ? & ? & ?).
  repeat split; congruence || lia. Qed.

(** A turn of the loop in a world that is down, while the count of retries
    allows another one. *)
Lemma while_endpoint_retry (args : Args) (cluster : string) (fuel : nat) (env : Env Net)
    (l : Locals) (s : string) :
  down (net env) ->
  retries l + 1 <= 3 ->
  exists env' l',
    down (net env') /\ only_requests 1 env l env' l' /\
    retries l' = retries l + 1 /\
    while_endpoint (S fuel) args cluster env l (PStr s) =
      while_endpoint fuel args cluster env' l' (PStr s).
Proof.
  intros Hdown Hle.
  destruct (while_body_down args cluster env l s Hdown)
    as (env' & l' & Hdown' & Hreq & [(_ & Hbody & Hr)|(Hgt & _)]); [|lia].
  exists env', l'. repeat split; try assumption; try apply Hreq.
  rewrite while_endpoint_turn by discriminate. rewrite Hbody. reflexivity.
Qed.

Lemma while_endpoint_down (args : Args) (cluster : string) (fuel : nat) (env : Env Net)
    (l : Locals) (s : string) :
  down (net env) ->
  retries l = 0 ->
  (4 <= fuel)%nat ->
  exists env' l',
    while_endpoint fuel args cluster env l (PStr s) = Done env' l' /\
    down (net env') /\ only_requests 4 env l env' l' /\ retries l' = 0.
Proof.
  intros Hdown Hr Hfuel.
  destruct fuel as [|[|[|[|fuel]]]]; try lia.
  destruct (while_endpoint_retry args cluster (S (S (S fuel))) env l s Hdown ltac:(lia))
    as (env1 & l1 & Hdown1 & Hreq1 & Hr1 & ->).
  destruct (while_endpoint_retry args cluster (S (S fuel)) env1 l1 s Hdown1 ltac:(lia))
    as (env2 & l2 & Hdown2 & Hreq2 & Hr2 & ->).
  destruct (while_endpoint_retry args cluster (S fuel) env2 l2 s Hdown2 ltac:(lia))
    as (env3 & l3 & Hdown3 & Hreq3 & Hr3 & ->).
  destruct (while_body_down args cluster env3 l3 s Hdown3)
    as (env4 & l4 & Hdown4 & Hreq4 & [(Hle & _)|(_ & Hbody & Hr4)]); [lia|].
  exists env4, l4. rewrite while_endpoint_turn by discriminate. rewrite Hbody.
  split; [reflexivity|]. split; [exact Hdown4|]. split; [|exact Hr4].
  exact (only_requests_trans 3 1 _ _ _ _ _ _
           (only_requests_trans 2 1 _ _ _ _ _ _
              (only_requests_trans 1 1 _ _ _ _ _ _ Hreq1 Hreq2) Hreq3) Hreq4).
Qed.

Lemma for_cluster_down (args : Args) (fuel : nat) (cs : list string) :
  (4 <= fuel)%nat ->
  forall (env : Env Net) (l : Locals),
    down (net env) ->
    retries l = 0 ->
    count l = 0 ->
    exists env' l',
      for_cluster fuel args env l cs = Done env' l' /\
      down (net env') /\
      only_requests (4 * Z.of_nat (List.length cs)) env l env' l' /\
      retries l' = 0.
Proof.
  intros Hfuel. induction cs as [|cluster rest IH]; intros env l Hdown Hr Hc; simpl for_cluster.
  - exists env, l. split; [reflexivity|]. split; [exact Hdown|]. split; [|exact Hr].
    unfold only_requests. simpl. repeat split; lia.
  - destruct (while_endpoint_down args cluster fuel env l (args_endpoint args) Hdown Hr Hfuel)
      as (env1 & l1 & -> & Hdown1 & Hreq1 & Hr1).
    assert (Hc1 : count l1 = 0) by (destruct Hreq1 as (_ & _ & _ & _ & ? & _); lia).
    assert (Hmax : max_reached args l1 = false).
    { unfold max_reached. rewrite Hc1. zbool. lia. }
    rewrite Hmax.
    destruct (IH env1 l1 Hdown1 Hr1 Hc1) as (env' & l' & -> & Hdown' & Hreq' & Hr').
    exists env', l'. split; [reflexivity|]. split; [exact Hdown'|]. split; [|exact Hr'].
    replace (4 * Z.of_nat (List.length (cluster :: rest)))
      with (4 + 4 * Z.of_nat (List.length rest)) by (simpl List.length; lia).
    exact (only_requests_trans _ _ _ _ _ _ _ _ Hreq1 Hreq').
Qed.

(** X11: when every request to the collection API raises, the run ends,
    within four turns of the loop for each cluster: every cluster is given
    up after four requests, twelve requests are made in all, no URL is
    probed or counted and the report stays empty. *)
Theorem outage_ends_the_run (fuel : nat) (args : Args) (n0 : Net) :
  down n0 ->
  (4 <= fuel)%nat ->
  exists env l,
    main fuel args n0 = Some (env, l) /\
    fetches (calls env) = 12 /\ probes (calls env) = 0 /\
    page l = 12 /\ count l = 0 /\ successes l = 0 /\ failures l = 0 /\
    tsv_file env = [].
Proof.
  intros Hdown Hfuel. unfold main, try_block.
  destruct (for_cluster_down args fuel clusters Hfuel
              {| net := n0; calls := []; stdout := []; tsv_file := [] |}
              {| page := 0; count := 0; successes := 0; failures := 0; retries := 0 |}
              Hdown eq_refl eq_refl)
    as (env & l & -> & _ & (Hf & Hp & Htsv & Hpage & Hc & Hs & Hfl) & _).
  simpl in Hf, Hp, Htsv, Hpage, Hc, Hs, Hfl.
  eexists _, l. split; [reflexivity|].
  unfold finish. destruct (count l >? 0); simpl; repeat split; assumption || lia.
Qed.

End Outage.

Lemma outage_ends_the_run_witness :
  Script.pages Script.slow = [] /\
  (4 <= 4)%nat /\
  exists env l,
    main 4 {| args_endpoint := Script.base; args_n := 0 |} Script.slow = Some (env, l) /\
    fetches (calls env) = 12 /\ probes (calls env) = 0 /\
    page l = 12 /\ count l = 0 /\ successes l = 0 /\ failures l = 0 /\
    tsv_file env = [].
Proof.
  split; [reflexivity|]. split; [lia|].
  refine (outage_ends_the_run (world := Script.world) (fun n => Script.pages n = []) _ 4
            {| args_endpoint := Script.base; args_n := 0 |} Script.slow eq_refl _).
  - intros n url hs ps Hn. exists n, Script.connection_error.
    split; [|exact Hn]. simpl. unfold Script.get. rewrite Hn. reflexivity.
  - lia.
Defined.

(** * The walk over the pages *)

Section Walk.

Context {Net RP : Type} {world : Collaborators Net RP}.

Lemma checked_trans (n1 n2 n3 : Net) : checked n1 n2 -> checked n2 n3 -> checked n1 n3.
Proof.
  induction 1 as [n|n n' url _ IH|n n' robots_url _ IH]; intros H3.
  - exact H3.
  - apply (checked_head n n3 url). apply IH. exact H3.
  - apply (checked_robots n n3 robots_url). apply IH. exact H3.
Qed.

Lemma check_url_walk (env : Env Net) (url : pyval) :
  probed (calls (fst (check_url env url))) = url :: probed (calls env) /\
  checked (net env) (net (fst (check_url env url))).
Proof.
  assert (Hhead1 : forall n1 r,
             requests_head (net env) url 30 false = (n1, r) -> checked (net env) n1).
  { intros n1 r Hhead. apply (checked_head _ _ url). rewrite Hhead. apply checked_refl. }
  destruct (requests_head (net env) url 30 false) as [n1 [e|response]] eqn:Hhead;
    specialize (Hhead1 _ _ eq_refl).
  { unfold check_url. rewrite Hhead. simpl. auto. }
  destruct (Z.eq_dec (status_code response) 200) as [Hcode|Hcode].
  - rewrite (check_url_200 _ _ _ _ Hhead Hcode). cbn zeta.
    destruct (urlparse url) as [e|parsed_uri]; [simpl; auto|].
    assert (Hread : checked (net env)
                      (fst (rp_read n1 (robots_txt parsed_uri)))).
    { apply (checked_trans _ n1 _ Hhead1).
      apply (checked_robots _ _ (robots_txt parsed_uri)). apply checked_refl. }
    destruct (rp_read n1 (robots_txt parsed_uri)) as [n2 [e|rp]]; [simpl; auto|].
    destruct (rp_crawl_delay rp "*") as [e|]; [simpl; auto|].
    destruct (rp_can_fetch rp "CoherenceBot" url) as [e|[|]]; simpl; auto.
  - destruct (check_url_bracket _ _ _ _ Hhead Hcode) as (b & s & _ & _ & ->).
    simpl. auto.
Qed.

Lemma walked_nil (env : Env Net) (l : Locals) : walked [] env l env l.
Proof. unfold walked. simpl. repeat split; lia. Qed.

Lemma walked_app (xs ys : list pyval) (env1 env2 env3 : Env Net) (l1 l2 l3 : Locals) :
  walked xs env1 l1 env2 l2 ->
  walked ys env2 l2 env3 l3 ->
  walked (xs ++ ys) env1 l1 env3 l3.
Proof.
  unfold walked.
  intros (? & ? & ? & ? & ? & ? & Hp1 & ? & ?) (? & ? & ? & ? & ? & ? & Hp2 & ? & ?).
  rewrite length_app, Nat2Z.inj_add.
  repeat split; try lia.
  rewrite Hp2, Hp1. unfold urls. rewrite flat_map_app, rev_app_distr, app_assoc.
  reflexivity.
Qed.

(** An entry with the fields of a seed is checked: counted once, as a
    success or a failure, and its URL probed once. *)
Lemma check_seed_walk (env : Env Net) (l : Locals) (collection : pyval) :
  well_formed collection ->
  exists env' l',
    check_seed env l collection = (env', l', None) /\
    walked [collection] env l env' l' /\
    checked (net env) (net env') /\
    ends_with_check (calls env') = true.
Proof.
  intros Hwf.
  destruct (check_seed_well_formed env l collection Hwf) as (env' & l' & Hseed).
  exists env', l'. split; [exact Hseed|].
  pose proof (check_seed_paged env l collection) as (Hpage & Hretries & Hfetches).
  pose proof (check_seed_checked env env' l l' collection Hseed)
    as ((Hcount & _ & _ & Hone) & Hprobes & Hends).
  rewrite Hseed in Hpage, Hretries, Hfetches. simpl in Hpage, Hretries, Hfetches.
  destruct Hwf as [[[[url title] uuid] org_slug] Hfields].
  pose proof (check_url_walk env url) as [Hprobed Hchecked].
  unfold check_seed in Hseed. rewrite Hfields in Hseed.
  assert (Henv : probed (calls env') = url :: probed (calls env) /\
                 checked (net env) (net env')).
  { destruct (check_url env url) as [env1 [[[|] code] m]];
      injection Hseed as <- _; simpl in *; auto. }
  destruct Henv as [Hprobed' Hchecked'].
  split; [|split; [exact Hchecked'|exact Hends]].
  unfold walked, urls, entry_url. simpl. rewrite Hfields. simpl.
  repeat split; try lia. exact Hprobed'.
Qed.

Lemma processed_nil (args : Args) (l : Locals) : processed args l [] = 0%nat.
Proof. unfold processed. destruct (args_n args <=? 0); reflexivity. Qed.

(** The [for] loop over a page whose entries all have the fields of a
    seed: it checks the first [processed] entries, each once and in their
    order, and stops before the end of the page only by the limit. *)
Lemma for_collection_walk (args : Args) (results : list pyval) :
  Forall well_formed results ->
  forall (env : Env Net) (l : Locals),
  exists env' l',
    for_collection args env l results = (env', l', None) /\
    walked (take (processed args l results) results) env l env' l' /\
    checked (net env) (net env') /\
    (processed args l results <> 0%nat -> ends_with_check (calls env') = true) /\
    (processed args l results = List.length results \/ max_reached args l' = true).
Proof.
  induction 1 as [|collection rest Hwf _ IH]; intros env l.
  - exists env, l. rewrite processed_nil. simpl.
    split; [reflexivity|]. split; [apply walked_nil|]. split; [apply checked_refl|].
    split; [congruence|left; reflexivity].
  - destruct (check_seed_walk env l collection Hwf)
      as (env1 & l1 & Hseed & Hwalk1 & Hchecked1 & Hends1).
    simpl for_collection. rewrite Hseed.
    assert (Hcount1 : count l1 = count l + 1) by (destruct Hwalk1 as [? _]; simpl in *; lia).
    destruct (max_reached args l1) eqn:Hmax.
    + exists env1, l1.
      assert (Hk : processed args l (collection :: rest) = 1%nat).
      { unfold max_reached in Hmax. unfold processed. simpl List.length.
        apply andb_true_iff in Hmax as [Hn Hc].
        rewrite Z.gtb_ltb in Hn. apply Z.ltb_lt in Hn.
        rewrite Z.geb_leb in Hc. apply Z.leb_le in Hc.
        destruct (Z.leb_spec (args_n args) 0); lia. }
      rewrite Hk. simpl take.
      split; [reflexivity|]. split; [exact Hwalk1|]. split; [exact Hchecked1|].
      split; [intros _; exact Hends1|right; exact Hmax].
    + destruct (IH env1 l1) as (env' & l' & Hfor & Hwalk & Hchecked & Hends & Hstop).
      exists env', l'.
      assert (Hk : processed args l (collection :: rest) = S (processed args l1 rest)).
      { unfold max_reached in Hmax. unfold processed. simpl List.length.
        rewrite Z.gtb_ltb, Z.geb_leb in Hmax.
        destruct (Z.leb_spec (args_n args) 0); [reflexivity|].
        apply andb_false_iff in Hmax as [Hn|Hc];
          [apply Z.ltb_ge in Hn; lia|apply Z.leb_gt in Hc; lia]. }
      rewrite Hk. simpl take.
      split; [exact Hfor|].
      split; [exact (walked_app [collection] _ _ _ _ _ _ _ Hwalk1 Hwalk)|].
      split; [exact (checked_trans _ _ _ Hchecked1 Hchecked)|].
      split.
      * intros _. destruct rest as [|collection2 rest].
        -- simpl in Hfor. injection Hfor as <- _. exact Hends1.
        -- apply Hends. unfold processed. simpl List.length.
           destruct (args_n args <=? 0); lia.
      * destruct Hstop as [Hall|Hstop]; [left; simpl; congruence|right; exact Hstop].
Qed.

Lemma processed_le (args : Args) (l : Locals) (results : list pyval) :
  (processed args l results <= List.length results)%nat.
Proof. unfold processed. destruct (args_n args <=? 0); lia. Qed.

(** An entry without the fields of a seed is counted, and ends the loop
    with the exception of the field that could not be read: no probe is
    made and nothing is printed. *)
Lemma check_seed_malformed (env : Env Net) (l : Locals) (collection : pyval) (e : exn) :
  seed_fields collection = inl e ->
  check_seed env l collection =
    (env,
     {| page := page l; count := count l + 1; successes := successes l;
        failures := failures l; retries := retries l |},
     Some e).
Proof. intros Hfields. unfold check_seed. rewrite Hfields. reflexivity. Qed.

(** C5, as amended: the [for] loop over a page whose entries all have the
    fields of a seed checks them one by one, in their order, each once
    (the URLs probed are the URLs of the entries checked), up to the end of
    the page or to the limit; every entry checked raises the count of
    processed URLs by one and exactly one of the counts of successes and of
    failures by one, so that successes + failures = processed holds after
    the page when it held before.  An entry without these fields raises
    the count of processed URLs only and ends the run.  In a run of any
    length, the equation holds when the loops end, with as many probes as
    URLs processed; when an exception ends the run, processed is successes
    + failures or one more. *)
Theorem counters_add_up (args : Args) (results : list pyval) (env : Env Net) (l : Locals) :
  Forall well_formed results ->
  (exists env' l',
      for_collection args env l results = (env', l', None) /\
      count l' = count l + Z.of_nat (processed args l results) /\
      successes l' + failures l' =
        successes l + failures l + Z.of_nat (processed args l results) /\
      successes l <= successes l' /\ failures l <= failures l' /\
      probed (calls env') =
        (rev (urls (take (processed args l results) results)) ++ probed (calls env))%list /\
      (processed args l results = List.length results \/ max_reached args l' = true) /\
      (successes l + failures l = count l -> successes l' + failures l' = count l')) /\
  (forall collection,
      well_formed collection ->
      exists env' l',
        check_seed env l collection = (env', l', None) /\
        counted_once l l' /\
        probed (calls env') = (entry_url collection ++ probed (calls env))%list) /\
  (forall collection e,
      seed_fields collection = inl e ->
      check_seed env l collection =
        (env,
         {| page := page l; count := count l + 1; successes := successes l;
            failures := failures l; retries := retries l |},
         Some e)) /\
  (forall fuel n0,
      match try_block fuel args n0 with
      | Done env' l' =>
          successes l' + failures l' = count l' /\ probes (calls env') = count l'
      | Raised _ l' _ =>
          successes l' + failures l' <= count l' <= successes l' + failures l' + 1
      | OutOfFuel => True
      end).
Proof.
  intros Hwf. split; [|split; [|split]].
  - destruct (for_collection_walk args results Hwf env l)
      as (env' & l' & Hfor & Hwalk & _ & _ & Hstop).
    exists env', l'. split; [exact Hfor|].
    destruct Hwalk as (Hc & Hs & Hs1 & Hf1 & _ & _ & Hprobed & _).
    rewrite length_take, Nat.min_l in Hc, Hs by apply processed_le.
    repeat split; try assumption; lia.
  - intros collection Hc.
    destruct (check_seed_walk env l collection Hc) as (env' & l' & Hseed & Hwalk & _).
    exists env', l'. split; [exact Hseed|].
    split; [exact (proj1 (check_seed_checked _ _ _ _ _ Hseed))|].
    destruct Hwalk as (_ & _ & _ & _ & _ & _ & Hprobed & _).
    unfold urls in Hprobed. simpl in Hprobed. rewrite app_nil_r in Hprobed.
    rewrite Hprobed. destruct Hc as [[[[url title] uuid] org_slug] Hfields].
    unfold entry_url. rewrite Hfields. reflexivity.
  - intros collection e. apply check_seed_malformed.
  - intros fuel n0. pose proof (try_block_tally fuel args n0) as Ht.
    destruct (try_block fuel args n0); unfold tally, tally_upto in Ht; [exact Ht|lia|exact I].
Qed.

End Walk.

(** C5, the claim as stated fails: the second entry of the page has no
    'org'.  It is counted as processed (line 61 comes before the fields are
    read) and is neither a success nor a failure: the run ends with 2 URLs
    processed, 1 success and 0 failures, and prints that summary. *)
Lemma count_runs_ahead :
  exists env,
    main 1 {| args_endpoint := Script.base; args_n := 0 |} Script.half_broken_api =
      Some (env, {| page := 1; count := 2; successes := 1; failures := 0; retries := 0 |}) /\
    stdout env !! 2%nat = Some (Summary 2 1 0).
Proof. eexists. split; vm_compute; reflexivity. Qed.

Lemma counters_add_up_witness :
  Forall well_formed Script.three /\
  exists env' l',
    for_collection {| args_endpoint := Script.base; args_n := 0 |}
      (Script.start Script.teapot) Script.zero Script.three = (env', l', None) /\
    count l' = 3 /\
    successes l' + failures l' = 3 /\
    probed (calls env') =
      [PStr "https://example.org/c"; PStr "https://example.org/b";
       PStr "https://example.org/a"].
Proof.
  assert (Hwf : Forall well_formed Script.three).
  { repeat constructor; eexists; vm_compute; reflexivity. }
  split; [exact Hwf|].
  destruct (counters_add_up (world := Script.world)
              {| args_endpoint := Script.base; args_n := 0 |} Script.three
              (Script.start Script.teapot) Script.zero Hwf)
    as [(env' & l' & Hfor & Hc & Hs & _ & _ & Hp & _) _].
  exists env', l'. split; [exact Hfor|]. split; [exact Hc|]. split; [exact Hs|]. exact Hp.
Defined.

(** * The limit on the number of URLs, on the pages the API serves *)

Section MaxRequests.

Context {Net RP : Type} {world : Collaborators Net RP}.

Lemma lookup_Some_non_empty (d : gmap string pyval) (k : string) (v : pyval) :
  d !! k = Some v -> d <> ∅.
Proof. intros H ->. rewrite lookup_empty in H. discriminate. Qed.

(** The value of [endpoint] after lines 53-56. *)
Lemma next_endpoint (d : gmap string pyval) :
  (if bool_decide (is_Some (d !! "next")) then Py.getitem (PDict d) "next" else inr PNone) =
    inr (default PNone (d !! "next")).
Proof.
  simpl. destruct (d !! "next") as [v|] eqn:Hnext.
  - rewrite bool_decide_eq_true_2 by eauto. reflexivity.
  - rewrite bool_decide_eq_false_2 by (intros [v Hv]; discriminate). reflexivity.
Qed.











Lemma for_cluster_cons (fuel : nat) (args : Args) (env : Env Net) (l : Locals)
    (cluster : string) (rest : list string) :
  for_cluster fuel args env l (cluster :: rest) =
    match while_endpoint fuel args cluster env l (PStr (args_endpoint args)) with
    | Done env l =>
        if max_reached args l then Done (print (MaxRequestsReached (args_n args)) env) l
        else for_cluster fuel args env l rest
    | r => r
    end.
Proof. reflexivity. Qed.


End MaxRequests.


Ltac next_page :=
  lazymatch goal with
  | |- serves _ _ ?endpoint _ =>
      let v := eval vm_compute in endpoint in change endpoint with v
  end.



(** * Pages that end the run *)

Section EndsTheRun.

Context {Net RP : Type} {world : Collaborators Net RP}.

(** The entries of a page up to the first one without the fields of a
    seed are checked, when the limit is not reached among them; that entry
    is counted and ends the [for] loop with its exception. *)
Lemma for_collection_malformed (args : Args) (good : list pyval) (bad : pyval)
    (rest : list pyval) (e : exn) :
  Forall well_formed good ->
  seed_fields bad = inl e ->
  forall (env : Env Net) (l : Locals),
    args_n args <= 0 \/ count l + Z.of_nat (List.length good) < args_n args ->
    exists env' l',
      for_collection args env l (good ++ bad :: rest) = (env', l', Some e) /\
      count l' = count l + Z.of_nat (List.length good) + 1 /\
      successes l' + failures l' =
        successes l + failures l + Z.of_nat (List.length good) /\
      page l' = page l /\
      probed (calls env') = (rev (urls good) ++ probed (calls env))%list /\
      fetches (calls env') = fetches (calls env).
Proof.
  intros Hwf Hbad. induction Hwf as [|collection good Hc _ IH]; intros env l Hlimit.
  - simpl. rewrite (check_seed_malformed env l bad e Hbad).
    eexists _, _. split; [reflexivity|]. simpl. repeat split; lia.
  - destruct (check_seed_walk env l collection Hc) as (env1 & l1 & Hseed & Hwalk & _).
    destruct Hwalk as (Hc1 & Hs1 & _ & _ & Hpage1 & _ & Hprobed1 & _ & Hf1).
    simpl in Hc1, Hs1, Hprobed1. simpl List.length in Hlimit.
    assert (Hmax : max_reached args l1 = false).
    { destruct Hlimit; [apply max_reached_no_limit; lia|apply max_reached_below; lia]. }
    destruct (IH env1 l1) as (env' & l' & Hfor & Hc' & Hs' & Hpage' & Hprobed' & Hf');
      [destruct Hlimit; [left; lia|right; lia]|].
    exists env', l'. simpl. rewrite Hseed, Hmax.
    split; [exact Hfor|]. simpl List.length.
    split; [lia|]. split; [lia|]. split; [lia|]. split; [|lia].
    rewrite app_nil_r in Hprobed1.
    rewrite Hprobed', Hprobed1. unfold urls. simpl.
    rewrite rev_app_distr, <- app_assoc. reflexivity.
Qed.

Lemma max_reached_below_or_none (args : Args) (l : Locals) :
  args_n args <= 0 \/ count l < args_n args -> max_reached args l = false.
Proof. intros [H|H]; [apply max_reached_no_limit|apply max_reached_below]; exact H. Qed.

(** What the first turn of the loop does with a page that was fetched. *)
Lemma while_body_page (args : Args) (cluster : string) (env : Env Net) (l : Locals)
    (s : string) (n1 : Net) (response : ApiResponse) (d : gmap string pyval) :
  requests_get (net env) (PStr s) api_headers (query s cluster) = (n1, inr response) ->
  api_status_code response = 200 ->
  api_json response = inr (PDict d) ->
  d <> ∅ ->
  let l1 := {| page := page l + 1; count := count l; successes := successes l;
               failures := failures l; retries := retries l |} in
  let env1 := called (CallGet (PStr s) (query s cluster)) n1
                (print (Checking cluster (page l + 1) (successes l) (failures l)) env) in
  while_body args cluster env l (PStr s) =
    match d !! "results" with
    | None => Continue env1 l1 (default PNone (d !! "next"))
    | Some results =>
        match Py.iter results with
        | inl e => Raise env1 l1 e
        | inr results =>
            match for_collection args env1 l1 results with
            | (env2, l2, Some e) => Raise env2 l2 e
            | (env2, l2, None) =>
                if max_reached args l2 then Break env2 l2
                else Continue env2 l2 (default PNone (d !! "next"))
            end
        end
    end.
Proof.
  intros Hget Hstatus Hjson Hd. cbn zeta.
  unfold while_body. rewrite get_seeds_str. cbn [net print]. rewrite Hget. cbn zeta.
  rewrite Hstatus, Hjson. cbn [Z.eqb Pos.eqb].
  rewrite (truthy_dict d Hd). cbn [negb].
  cbn [Py.contains]. rewrite next_endpoint.
  destruct (d !! "results") as [results|] eqn:Hresults.
  - rewrite bool_decide_eq_true_2 by eauto.
    cbn [Py.getitem]. rewrite Hresults. reflexivity.
  - rewrite bool_decide_eq_false_2 by (intros [v Hv]; discriminate). reflexivity.
Qed.

(** X12: on a page that was fetched, an entry without one of the fields
    of a seed, after entries that have them all and before the limit is
    reached, ends the loops with the exception raised by the reading of
    the field: the entries before it have been checked, in their order;
    the entry itself is counted as processed and is not probed; no entry,
    page or cluster after it is looked at. *)
Theorem malformed_entry_ends_the_run (fuel : nat) (args : Args) (cluster : string)
    (others : list string) (env : Env Net) (l : Locals) (s : string) (n1 : Net)
    (response : ApiResponse) (d : gmap string pyval) (good : list pyval) (bad : pyval)
    (rest : list pyval) (e : exn) :
  requests_get (net env) (PStr s) api_headers (query s cluster) = (n1, inr response) ->
  api_status_code response = 200 ->
  api_json response = inr (PDict d) ->
  d !! "results" = Some (PList (good ++ bad :: rest)) ->
  Forall well_formed good ->
  seed_fields bad = inl e ->
  args_n args <= 0 \/ count l + Z.of_nat (List.length good) < args_n args ->
  exists env' l',
    while_endpoint (S fuel) args cluster env l (PStr s) = Raised env' l' e /\
    (s = args_endpoint args ->
     for_cluster (S fuel) args env l (cluster :: others) = Raised env' l' e) /\
    count l' = count l + Z.of_nat (List.length good) + 1 /\
    successes l' + failures l' =
      successes l + failures l + Z.of_nat (List.length good) /\
    probed (calls env') = (rev (urls good) ++ probed (calls env))%list /\
    fetches (calls env') = fetches (calls env) + 1.
Proof.
  intros Hget Hstatus Hjson Hresults Hwf Hbad Hlimit.
  pose proof (while_body_page args cluster env l s n1 response d Hget Hstatus Hjson
                (lookup_Some_non_empty d _ _ Hresults)) as Hbody.
  cbn zeta in Hbody. rewrite Hresults in Hbody. cbn [Py.iter] in Hbody.
  match type of Hbody with
  | context [for_collection args ?env1 ?l1 _] =>
      destruct (for_collection_malformed args good bad rest e Hwf Hbad env1 l1 Hlimit)
        as (env' & l' & Hfor & Hc & Hs & _ & Hprobed & Hf)
  end.
  rewrite Hfor in Hbody. simpl in Hc, Hs, Hprobed, Hf.
  assert (Hwhile : while_endpoint (S fuel) args cluster env l (PStr s) = Raised env' l' e)
    by (rewrite while_endpoint_turn by discriminate; rewrite Hbody; reflexivity).
  exists env', l'. split; [exact Hwhile|].
  split; [intros ->; rewrite for_cluster_cons, Hwhile; reflexivity|].
  split; [exact Hc|]. split; [exact Hs|]. split; [exact Hprobed|lia].
Qed.

(** X13: a page that was fetched with a 'next' that is an integer or a
    boolean ends the loops with a TypeError at the next turn, before any
    request is made for it, when the limit is not reached on the page: the
    entries of the page (all with the fields of a seed) have been checked,
    the page number has gone up twice and one request was made. *)
Theorem numeric_next_ends_the_run (fuel : nat) (args : Args) (cluster : string)
    (others : list string) (env : Env Net) (l : Locals) (s : string) (n1 : Net)
    (response : ApiResponse) (d : gmap string pyval) (next : pyval)
    (entries : list pyval) :
  requests_get (net env) (PStr s) api_headers (query s cluster) = (n1, inr response) ->
  api_status_code response = 200 ->
  api_json response = inr (PDict d) ->
  d !! "next" = Some next ->
  (exists z, next = PInt z) \/ (exists b, next = PBool b) ->
  (d !! "results" = None /\ entries = []) \/ d !! "results" = Some (PList entries) ->
  Forall well_formed entries ->
  args_n args <= 0 \/ count l + Z.of_nat (List.length entries) < args_n args ->
  exists env' l' e,
    while_endpoint (S (S fuel)) args cluster env l (PStr s) = Raised env' l' e /\
    (s = args_endpoint args ->
     for_cluster (S (S fuel)) args env l (cluster :: others) = Raised env' l' e) /\
    exn_class_of e = TypeError /\
    count l' = count l + Z.of_nat (List.length entries) /\
    successes l' + failures l' =
      successes l + failures l + Z.of_nat (List.length entries) /\
    page l' = page l + 2 /\
    probed (calls env') = (rev (urls entries) ++ probed (calls env))%list /\
    fetches (calls env') = fetches (calls env) + 1.
Proof.
  intros Hget Hstatus Hjson Hnext Hnumber Hresults Hwf Hlimit.
  assert (Hraise : exists e, Py.contains next "?" = inl e /\ exn_class_of e = TypeError /\
                             next <> PNone).
  { destruct Hnumber as [[z ->]|[b ->]]; eexists; (split; [reflexivity|]);
      split; [reflexivity|discriminate|reflexivity|discriminate]. }
  destruct Hraise as (e & Hcontains & Hclass & Hnot_None).
  pose proof (while_body_page args cluster env l s n1 response d Hget Hstatus Hjson
                (lookup_Some_non_empty d _ _ Hnext)) as Hbody.
  cbn zeta in Hbody. rewrite Hnext in Hbody. cbn [default] in Hbody.
  assert (Hturn : exists env1 l1,
             while_body args cluster env l (PStr s) = Continue env1 l1 next /\
             count l1 = count l + Z.of_nat (List.length entries) /\
             successes l1 + failures l1 =
               successes l + failures l + Z.of_nat (List.length entries) /\
             page l1 = page l + 1 /\
             probed (calls env1) = (rev (urls entries) ++ probed (calls env))%list /\
             fetches (calls env1) = fetches (calls env) + 1).
  { destruct Hresults as [[Hresults ->]|Hresults]; rewrite Hresults in Hbody.
    - eexists _, _. split; [exact Hbody|]. simpl. repeat split; lia.
    - cbn [Py.iter] in Hbody.
      match type of Hbody with
      | context [for_collection args ?env1 ?l1 _] =>
          destruct (for_collection_walk args entries Hwf env1 l1)
            as (env2 & l2 & Hfor & Hwalk & _ & _ & _);
          assert (Hall : processed args l1 entries = List.length entries)
      end.
      { unfold processed. simpl count.
        destruct (Z.leb_spec (args_n args) 0); [reflexivity|].
        destruct Hlimit; lia. }
      rewrite Hall, firstn_all in Hwalk.
      destruct Hwalk as (Hc & Hs & _ & _ & Hpage & _ & Hprobed & _ & Hf).
      simpl in Hc, Hs, Hpage, Hprobed, Hf.
      rewrite Hfor in Hbody.
      rewrite max_reached_below_or_none in Hbody by (destruct Hlimit; [left|right]; lia).
      exists env2, l2. split; [exact Hbody|].
      split; [exact Hc|]. split; [exact Hs|]. split; [exact Hpage|].
      split; [exact Hprobed|lia]. }
  destruct Hturn as (env1 & l1 & Hbody1 & Hc & Hs & Hpage & Hprobed & Hf).
  set (l2 := {| page := page l1 + 1; count := count l1; successes := successes l1;
                failures := failures l1; retries := retries l1 |}).
  set (env2 := print (Checking cluster (page l1 + 1) (successes l1) (failures l1)) env1).
  assert (Hbody2 : while_body args cluster env1 l1 next = Raise env2 l2 e).
  { unfold while_body, get_seeds. rewrite Hcontains. reflexivity. }
  assert (Hwhile : while_endpoint (S (S fuel)) args cluster env l (PStr s) = Raised env2 l2 e).
  { rewrite while_endpoint_turn by discriminate. rewrite Hbody1.
    rewrite while_endpoint_turn by exact Hnot_None. rewrite Hbody2. reflexivity. }
  exists env2, l2, e. split; [exact Hwhile|].
  split; [intros ->; rewrite for_cluster_cons, Hwhile; reflexivity|].
  split; [exact Hclass|]. simpl.
  split; [exact Hc|]. split; [exact Hs|]. split; [lia|]. split; [exact Hprobed|exact Hf].
Qed.

End EndsTheRun.

Lemma malformed_entry_ends_the_run_witness :
  Script.get Script.half_broken_api (PStr Script.base) api_headers
    (query Script.base "us-east-2") =
    (Script.server [] (Script.status 200) (inr true),
     Script.ok (PDict {["results" :=
                          PList [Script.seed "https://example.org/a"; Script.broken_entry]]})) /\
  Forall well_formed [Script.seed "https://example.org/a"] /\
  seed_fields Script.broken_entry = inl (Exn KeyError "'org'") /\
  exists env' l',
    for_cluster 1 {| args_endpoint := Script.base; args_n := 0 |}
      (Script.start Script.half_broken_api) Script.zero clusters =
      Raised env' l' (Exn KeyError "'org'") /\
    count l' = 2 /\
    successes l' + failures l' = 1 /\
    probed (calls env') = [PStr "https://example.org/a"] /\
    fetches (calls env') = 1.
Proof.
  assert (Hwf : Forall well_formed [Script.seed "https://example.org/a"]).
  { repeat constructor. eexists. vm_compute. reflexivity. }
  split; [reflexivity|]. split; [exact Hwf|]. split; [vm_compute; reflexivity|].
  destruct (malformed_entry_ends_the_run (world := Script.world) 0
              {| args_endpoint := Script.base; args_n := 0 |} "us-east-2"
              ["eu-central-1"; "ap-northeast-1"]
              (Script.start Script.half_broken_api) Script.zero Script.base
              (Script.server [] (Script.status 200) (inr true))
              {| api_status_code := 200;
                 api_json := inr (PDict {["results" :=
                   PList [Script.seed "https://example.org/a"; Script.broken_entry]]}) |}
              {["results" := PList [Script.seed "https://example.org/a"; Script.broken_entry]]}
              [Script.seed "https://example.org/a"] Script.broken_entry []
              (Exn KeyError "'org'")
              eq_refl eq_refl eq_refl eq_refl Hwf ltac:(vm_compute; reflexivity)
              ltac:(left; simpl; lia))
    as (env' & l' & _ & Hfor & Hc & Hs & Hprobed & Hf).
  exists env', l'. split; [exact (Hfor eq_refl)|].
  split; [exact Hc|]. split; [exact Hs|]. split; [exact Hprobed|exact Hf].
Defined.

Lemma numeric_next_ends_the_run_witness :
  Script.get Script.numbered_page_api (PStr Script.base) api_headers
    (query Script.base "us-east-2") =
    (Script.server [] (Script.status 404) (inr true),
     Script.ok (PDict (<["next" := PInt 2]> {["results" := PList Script.three]}))) /\
  Forall well_formed Script.three /\
  1 + Z.of_nat (List.length Script.three) < 5 /\
  exists env' l' e,
    for_cluster 2 {| args_endpoint := Script.base; args_n := 5 |}
      (Script.start Script.numbered_page_api)
      {| page := 0; count := 1; successes := 1; failures := 0; retries := 0 |} clusters =
      Raised env' l' e /\
    exn_class_of e = TypeError /\
    count l' = 4 /\
    successes l' + failures l' = 4 /\
    page l' = 2 /\
    probed (calls env') =
      [PStr "https://example.org/c"; PStr "https://example.org/b";
       PStr "https://example.org/a"] /\
    fetches (calls env') = 1.
Proof.
  assert (Hwf : Forall well_formed Script.three).
  { repeat constructor; eexists; vm_compute; reflexivity. }
  split; [reflexivity|]. split; [exact Hwf|]. split; [simpl; lia|].
  destruct (numeric_next_ends_the_run (world := Script.world) 0
              {| args_endpoint := Script.base; args_n := 5 |} "us-east-2"
              ["eu-central-1"; "ap-northeast-1"]
              (Script.start Script.numbered_page_api)
              {| page := 0; count := 1; successes := 1; failures := 0; retries := 0 |}
              Script.base
              (Script.server [] (Script.status 404) (inr true))
              {| api_status_code := 200;
                 api_json := inr (PDict (<["next" := PInt 2]>
                                           {["results" := PList Script.three]})) |}
              (<["next" := PInt 2]> {["results" := PList Script.three]})
              (PInt 2) Script.three
              eq_refl eq_refl eq_refl eq_refl
              (or_introl (ex_intro _ 2 eq_refl))
              (or_intror eq_refl) Hwf ltac:(right; simpl; lia))
    as (env' & l' & e & _ & Hfor & Hclass & Hc & Hs & Hpage & Hprobed & Hf).
  exists env', l', e. split; [exact (Hfor eq_refl)|].
  split; [exact Hclass|]. split; [exact Hc|]. split; [exact Hs|].
  split; [exact Hpage|]. split; [exact Hprobed|exact Hf].
Defined.
